(** * Playback controllers of the two Colorado-river dashboards

    A shallow embedding of the animation callbacks of
    [locodams/main.py] (dam release and energy projections) and
    [locoflow/main.py] (stream-gage flow rates and gage heights):
    the redraw functions, the timer callback [animate], the button
    callback [update] and the slider callback [slider_update].

    Python's module-level globals ([index], [ds], the widgets) become the
    fields of a [state] record that every callback takes and returns.  A
    callback that raises keeps the mutations it made before the exception;
    this is the [outcome] type below.

    An assignment to a widget property is recorded in the state.  Both
    files register [slider_update] with [slider.on_change("value", ...)],
    so an assignment to [slider.value] that changes the value also calls
    [slider_update] at once, inside the assignment; nothing is registered
    on [button.label].

    Opacities are the float literals 0, 0.2, 0.3, 0.9 and 1 of the source.
    They are only stored and compared, never computed with, so they are
    the rationals with the same decimal notation here. *)

From Stdlib Require Import ZArith QArith Lia.
From stdpp Require Import base gmap list strings.

Local Open Scope string_scope.
Local Open Scope list_scope.

(** ** Python values and sequences *)

(** The exceptions the callbacks can raise. *)
Inductive exn : Type :=
| IndexError
| ZeroDivisionError
| ValueError.

(** What a call leaves behind: the state on return, or the exception with
    the state as it was when the exception left the function. *)
Inductive outcome (S : Type) : Type :=
| Returned (s : S)
| Raised (e : exn) (s : S).
Arguments Returned {S} s.
Arguments Raised {S} e s.

Definition state_of {S : Type} (o : outcome S) : S :=
  match o with
  | Returned s => s
  | Raised _ s => s
  end.

Definition bind {S : Type} (o : outcome S) (f : S → outcome S) : outcome S :=
  match o with
  | Returned s => f s
  | Raised e s => Raised e s
  end.

Notation "x ←' o ; f" := (bind o (λ x, f))
  (at level 20, o at level 100, f at level 200, only parsing).

(** The position a Python index [i] denotes in a sequence of length [len]:
    negative indices count from the end, anything else is out of range. *)
Definition py_index (len : nat) (i : Z) : option nat :=
  if decide (0 ≤ i < Z.of_nat len)%Z then Some (Z.to_nat i)
  else if decide (- Z.of_nat len ≤ i < 0)%Z then Some (Z.to_nat (Z.of_nat len + i))
  else None.

(** [l[i] = v] *)
Definition py_setitem {A : Type} (l : list A) (i : Z) (v : A) : exn + list A :=
  match py_index (length l) i with
  | Some p => inr (<[p := v]> l)
  | None => inl IndexError
  end.

(** [l[:k]] *)
Definition py_slice_to {A : Type} (k : Z) (l : list A) : list A :=
  if decide (0 ≤ k)%Z then take (Z.to_nat k) l
  else take (Z.to_nat (Z.of_nat (length l) + k)) l.

(** [[f(i) for i in range(m)]] *)
Definition comprehension {A : Type} (f : nat → A) (m : nat) : list A :=
  f <$> seq 0 m.

(** ** Data sources *)

(** A column of a data source: one float, one timestamp or one string
    (a colour) per entry, or, for the [xs] and [ys] of a multi-line glyph,
    one sequence per line. *)
Inductive column : Type :=
| Floats (vs : list Q)
| Times (ts : list Z)
| Strings (ss : list string)
| FloatSeqs (vss : list (list Q))
| TimeSeqs (tss : list (list Z)).

(** [d.data]: a dictionary from column names to columns. *)
Abbreviation data := (gmap string column).

(** [for (j, d) in enumerate(ds): body]. The body either replaces [d]'s
    data or raises before touching it; the sources already visited keep
    their new data when a later one raises. *)
Fixpoint for_enumerate (body : nat → data → exn + data) (j : nat)
    (ds : list data) : outcome (list data) :=
  match ds with
  | [] => Returned []
  | d :: rest =>
      match body j d with
      | inl e => Raised e (d :: rest)
      | inr d' =>
          match for_enumerate body (S j) rest with
          | Returned rest' => Returned (d' :: rest')
          | Raised e rest' => Raised e (d' :: rest')
          end
      end
  end.

(** ** The host document *)

(** The functions registered with the document as periodic callbacks. *)
Inductive callback : Type :=
| Animate.

Global Instance callback_eq_dec : EqDecision callback.
Proof. solve_decision. Defined.

(** The periodic callbacks of [bk.curdoc()], each with its period in
    milliseconds.  The document belongs to the plotting library; it is
    kept as the list of registrations, added to and removed from by
    reference to the function.  Removing a function that is not
    registered raises [ValueError]. *)
Definition add_periodic_callback (cb : callback) (period : Q)
    (doc : list (callback * Q)) : list (callback * Q) :=
  doc ++ [(cb, period)].

Definition remove_periodic_callback (cb : callback)
    (doc : list (callback * Q)) : exn + list (callback * Q) :=
  if decide (cb ∈ doc.*1) then inr (filter (λ r, r.1 ≠ cb) doc)
  else inl ValueError.

(** The host calls [cb] on its timer only while [cb] is registered. *)
Definition fires (cb : callback) (doc : list (callback * Q)) : Prop :=
  ∃ period, (cb, period) ∈ doc.

(** The events the host delivers to a dashboard. *)
Inductive event : Type :=
| Tick
| Scrub (k : Z)
| Click.

(** ** The dams dashboard, [locodams/main.py] *)

Module Locodams.

(** The module's globals that the callbacks read or write. *)
Record state : Type := State {
  ds : list data;                  (* [e.data_source for e in elements] *)
  index : Z;
  slider_value : Z;                (* [slider.value] *)
  button_label : string;           (* [button.label] *)
  periodic : list (callback * Q)   (* periodic callbacks of [bk.curdoc()] *)
}.

Definition set_ds (v : list data) (s : state) : state :=
  State v (index s) (slider_value s) (button_label s) (periodic s).
Definition set_index (v : Z) (s : state) : state :=
  State (ds s) v (slider_value s) (button_label s) (periodic s).
Definition set_slider_value (v : Z) (s : state) : state :=
  State (ds s) (index s) v (button_label s) (periodic s).
Definition set_button_label (v : string) (s : state) : state :=
  State (ds s) (index s) (slider_value s) v (periodic s).
Definition set_periodic (v : list (callback * Q)) (s : state) : state :=
  State (ds s) (index s) (slider_value s) (button_label s) v.

(** Default arguments of [redraw2] and [update]. *)
Definition lo : Q := 0.3.
Definition hi : Q := 0.9.
Definition fps : Z := 15.

(** The slider's [end]. *)
Definition slider_end : Z := 72.

Section Callbacks.

(** [n = [d.shape[0] for d in dsets]]: the number of rows of each site's
    table, fixed when the CSV is loaded. *)
Variable n : list nat.

(** The body of the loop of [redraw2], for the [j]-th source. *)
Definition redraw2_body (k : Z) (lo hi : Q) (j : nat) (d : data) : exn + data :=
  match n !! j with
  | None => inl IndexError
  | Some nj =>
      let alpha := comprehension (λ i, if decide (Z.of_nat i < k)%Z then lo else 0%Q) nj in
      match py_setitem alpha (k - 1) hi with
      | inl e => inl e
      | inr alpha => inr (<["fill_alpha" := Floats alpha]> d)
      end
  end.

Definition redraw2 (k : Z) (lo hi : Q) (s : state) : outcome state :=
  match for_enumerate (redraw2_body k lo hi) 0 (ds s) with
  | Returned ds' => Returned (set_ds ds' s)
  | Raised e ds' => Raised e (set_ds ds' s)
  end.

(** The body of the loop in the [else] branch of [animate]. *)
Definition clear_body (j : nat) (d : data) : exn + data :=
  match n !! j with
  | None => inl IndexError
  | Some nj => inr (<["fill_alpha" := Floats (comprehension (λ _, 0%Q) nj)]> d)
  end.

(** Defined after [animate] in the source; [animate] reaches it through
    the slider. *)
Definition slider_update (attrname : string) (old new : Z) (s : state) : outcome state :=
  let s := set_index (slider_value s) s in
  redraw2 (index s) lo hi s.

(** [slider.value = v]: the slider stores [v] and, when that changed its
    value, calls the function registered with
    [slider.on_change("value", slider_update)]. *)
Definition assign_slider_value (v : Z) (s : state) : outcome state :=
  if decide (slider_value s = v) then Returned s
  else slider_update "value" (slider_value s) v (set_slider_value v s).

Definition animate (s : state) : outcome state :=
  match n !! 0%nat with
  | None => Raised IndexError s
  | Some n0 =>
      s ←' (if decide (index s < Z.of_nat n0)%Z then
              let s := set_index (index s + 1) s in
              redraw2 (index s) lo hi s
            else
              match for_enumerate clear_body 0 (ds s) with
              | Returned ds' => Returned (set_index 0 (set_ds ds' s))
              | Raised e ds' => Raised e (set_ds ds' s)
              end);
      assign_slider_value (index s) s
  end.

Definition update (fps : Z) (s : state) : outcome state :=
  if decide (button_label s = "Play") then
    let s := set_button_label "Pause" s in
    if decide (fps = 0%Z) then Raised ZeroDivisionError s
    else Returned (set_periodic
           (add_periodic_callback Animate (1000 / inject_Z fps)%Q (periodic s)) s)
  else
    let s := set_button_label "Play" s in
    match remove_periodic_callback Animate (periodic s) with
    | inl e => Raised e s
    | inr doc => Returned (set_periodic doc s)
    end.

(** Delivery of one event: a timer tick calls [animate], a click calls
    [update], and a move of the slider to [k] stores [k] in [slider.value]
    and calls [slider_update]. An exception ends the callback, not the
    session. *)
Definition deliver (e : event) (s : state) : state :=
  match e with
  | Tick => state_of (animate s)
  | Scrub k => state_of (slider_update "value" (slider_value s) k (set_slider_value k s))
  | Click => state_of (update fps s)
  end.

Definition run (es : list event) (s : state) : state :=
  foldl (λ s e, deliver e s) s es.

End Callbacks.

End Locodams.

(** ** The flow and gage dashboard, [locoflow/main.py] *)

Module Locoflow.

(** [ds]: the data sources of the map markers, of the tape circles and of
    the multi-line glyph. *)
Record sources : Type := Sources {
  points : list data;
  tapes : list data;
  lines : data
}.

Record state : Type := State {
  ds : sources;
  index : Z;
  slider_value : Z;                (* [slider.value] *)
  button_label : string;           (* [button.label] *)
  periodic : list (callback * Q)   (* periodic callbacks of [bk.curdoc()] *)
}.

Definition set_points (v : list data) (s : state) : state :=
  State (Sources v (tapes (ds s)) (lines (ds s)))
        (index s) (slider_value s) (button_label s) (periodic s).
Definition set_tapes (v : list data) (s : state) : state :=
  State (Sources (points (ds s)) v (lines (ds s)))
        (index s) (slider_value s) (button_label s) (periodic s).
Definition set_lines (v : data) (s : state) : state :=
  State (Sources (points (ds s)) (tapes (ds s)) v)
        (index s) (slider_value s) (button_label s) (periodic s).
Definition set_index (v : Z) (s : state) : state :=
  State (ds s) v (slider_value s) (button_label s) (periodic s).
Definition set_slider_value (v : Z) (s : state) : state :=
  State (ds s) (index s) v (button_label s) (periodic s).
Definition set_button_label (v : string) (s : state) : state :=
  State (ds s) (index s) (slider_value s) v (periodic s).
Definition set_periodic (v : list (callback * Q)) (s : state) : state :=
  State (ds s) (index s) (slider_value s) (button_label s) v.

(** Number of observations in each dataset. *)
Definition n : nat := 145.

(** Default arguments of [redraw_tapes] and [update]. *)
Definition lo : Q := 0.2.
Definition hi : Q := 0.9.
Definition fps : Z := 12.

(** The slider's [end]. *)
Definition slider_end : Z := 144.

Section Callbacks.

(** [xvals] and [yvals]: per site, the timestamps and the gage heights of
    its table, in time order. *)
Variable xvals : list (list Z).
Variable yvals : list (list Q).

Definition redraw_points_body (k : Z) (j : nat) (d : data) : exn + data :=
  let alpha := comprehension (λ i, if decide (Z.of_nat i = k) then 1%Q else 0%Q) n in
  inr (<["fill_alpha" := Floats alpha]> d).

Definition redraw_points (k : Z) (s : state) : outcome state :=
  match for_enumerate (redraw_points_body k) 0 (points (ds s)) with
  | Returned ps => Returned (set_points ps s)
  | Raised e ps => Raised e (set_points ps s)
  end.

Definition redraw_tapes_body (k : Z) (lo hi : Q) (j : nat) (d : data) : exn + data :=
  let alpha := comprehension (λ i, if decide (Z.of_nat i < k)%Z then lo else 0%Q) n in
  match py_setitem alpha (k - 1) (if decide (k > 0)%Z then hi else 0%Q) with
  | inl e => inl e
  | inr alpha => inr (<["fill_alpha" := Floats alpha]> d)
  end.

Definition redraw_tapes (k : Z) (lo hi : Q) (s : state) : outcome state :=
  match for_enumerate (redraw_tapes_body k lo hi) 0 (tapes (ds s)) with
  | Returned ts => Returned (set_tapes ts s)
  | Raised e ts => Raised e (set_tapes ts s)
  end.

Definition redraw_lines (k : Z) (s : state) : outcome state :=
  let props := lines (ds s) in
  let props := <["xs" := TimeSeqs (py_slice_to k <$> xvals)]> props in
  let props := <["ys" := FloatSeqs (py_slice_to k <$> yvals)]> props in
  Returned (set_lines props s).

(** Defined after [animate] in the source; [animate] reaches it through
    the slider. *)
Definition slider_update (attrname : string) (old new : Z) (s : state) : outcome state :=
  let s := set_index (slider_value s) s in
  s ←' redraw_points (index s) s;
  s ←' redraw_tapes (index s) lo hi s;
  redraw_lines (index s) s.

(** [slider.value = v]: the slider stores [v] and, when that changed its
    value, calls the function registered with
    [slider.on_change("value", slider_update)]. *)
Definition assign_slider_value (v : Z) (s : state) : outcome state :=
  if decide (slider_value s = v) then Returned s
  else slider_update "value" (slider_value s) v (set_slider_value v s).

Definition animate (s : state) : outcome state :=
  s ←' (if decide (index s < Z.of_nat n)%Z then
          let s := set_index (index s + 1) s in
          s ←' redraw_points (index s) s;
          s ←' redraw_tapes (index s) lo hi s;
          redraw_lines (index s) s
        else
          Returned (set_index 0 s));
  assign_slider_value (index s) s.

Definition update (fps : Z) (s : state) : outcome state :=
  if decide (button_label s = "Play") then
    let s := set_button_label "Pause" s in
    if decide (fps = 0%Z) then Raised ZeroDivisionError s
    else Returned (set_periodic
           (add_periodic_callback Animate (1000 / inject_Z fps)%Q (periodic s)) s)
  else
    let s := set_button_label "Play" s in
    match remove_periodic_callback Animate (periodic s) with
    | inl e => Raised e s
    | inr doc => Returned (set_periodic doc s)
    end.

(** Delivery of one event, as for the dams dashboard. *)
Definition deliver (e : event) (s : state) : state :=
  match e with
  | Tick => state_of (animate s)
  | Scrub k => state_of (slider_update "value" (slider_value s) k (set_slider_value k s))
  | Click => state_of (update fps s)
  end.

Definition run (es : list event) (s : state) : state :=
  foldl (λ s e, deliver e s) s es.

End Callbacks.

End Locoflow.

(** ** Vocabulary of the statements *)

(** How many entries of an opacity array equal [v]. *)
Definition count_opacity (v : Q) (alpha : list Q) : nat :=
  length (List.filter (Qeq_bool v) alpha).

(** The opacity array of a data source, when it has one. *)
Definition fill_alpha (d : data) : option (list Q) :=
  match d !! "fill_alpha" with
  | Some (Floats alpha) => Some alpha
  | _ => None
  end.

(** The comet trail at frame [k] over [N] observations: the entry [k - 1]
    highlighted, the entries before it dimmed, the others invisible. *)
Definition comet (lo hi : Q) (k : Z) (i : nat) : Q :=
  if decide (Z.of_nat i = k - 1)%Z then hi
  else if decide (Z.of_nat i < k - 1)%Z then lo
  else 0%Q.

(** The same array written out: [k - 1] dimmed entries, the highlight,
    and zeros up to [N]. *)
Definition trail (lo hi : Q) (N : nat) (k : Z) : list Q :=
  replicate (Z.to_nat (k - 1)) lo ++ hi :: replicate (N - Z.to_nat k) 0%Q.

Definition comet_trail (lo hi : Q) (N : nat) (k : Z) (d : data) : Prop :=
  ∃ alpha, fill_alpha d = Some alpha ∧ length alpha = N ∧
    (∀ i, (i < N)%nat → alpha !! i = Some (comet lo hi k i)) ∧
    count_opacity hi alpha = 1%nat ∧
    count_opacity lo alpha = Z.to_nat (k - 1) ∧
    count_opacity 0%Q alpha = (N - Z.to_nat k)%nat.

(** The array the single-point redraw builds at frame [k]. *)
Definition dots (N : nat) (k : Z) : list Q :=
  comprehension (λ i, if decide (Z.of_nat i = k) then 1%Q else 0%Q) N.

(** The cleared state of an element: an opacity array of zeros. *)
Definition cleared (d : data) : Prop :=
  ∃ alpha, fill_alpha d = Some alpha ∧ Forall (λ a, a = 0%Q) alpha.

(** The single-point highlight at frame [k]. *)
Definition single_point (N : nat) (k : Z) (d : data) : Prop :=
  ∃ alpha, fill_alpha d = Some alpha ∧ length alpha = N ∧
    ∀ i, (i < N)%nat →
      alpha !! i = Some (if decide (Z.of_nat i = k) then 1%Q else 0%Q).

Definition visible_points (d : data) : nat :=
  match fill_alpha d with
  | Some alpha => count_opacity 1%Q alpha
  | None => 0%nat
  end.

(** The visible paths of the line traces. *)
Definition visible_xs (d : data) : list (list Z) :=
  match d !! "xs" with
  | Some (TimeSeqs xs) => xs
  | _ => []
  end.

Definition visible_ys (d : data) : list (list Q) :=
  match d !! "ys" with
  | Some (FloatSeqs ys) => ys
  | _ => []
  end.

(** Two data sources that agree on every column but those named. *)
Definition same_except (keys : list string) (d d' : data) : Prop :=
  ∀ key, key ∉ keys → d' !! key = d !! key.

(** In a list of events, every scrub stays within [0, N]. *)
Definition scrubs_within (N : Z) (es : list event) : Prop :=
  Forall (λ e, match e with Scrub k => (0 ≤ k ≤ N)%Z | _ => True end) es.

(** The flow dashboard showing frame [k]: markers, tapes and line traces
    redrawn for [k], cursor and slider at [k], everything else as in [s]. *)
Definition flow_frame (xvals : list (list Z)) (yvals : list (list Q))
    (k : Z) (s : Locoflow.state) : Locoflow.state :=
  Locoflow.State
    (Locoflow.Sources
       ((λ d, <["fill_alpha" := Floats (dots Locoflow.n k)]> d)
          <$> Locoflow.points (Locoflow.ds s))
       ((λ d, <["fill_alpha" :=
                  Floats (trail Locoflow.lo Locoflow.hi Locoflow.n k)]> d)
          <$> Locoflow.tapes (Locoflow.ds s))
       (<["ys" := FloatSeqs (py_slice_to k <$> yvals)]>
          (<["xs" := TimeSeqs (py_slice_to k <$> xvals)]>
             (Locoflow.lines (Locoflow.ds s)))))
    k k (Locoflow.button_label s) (Locoflow.periodic s).

(** The dams dashboard showing frame [k] over tables of [N] rows. *)
Definition dams_frame (N : nat) (k : Z) (s : Locodams.state) : Locodams.state :=
  Locodams.State
    ((λ d, <["fill_alpha" :=
               Floats (trail Locodams.lo Locodams.hi N k)]> d)
       <$> Locodams.ds s)
    k k (Locodams.button_label s) (Locodams.periodic s).

(** The dams dashboard rewound: every opacity array at zero, cursor and
    slider at 0. *)
Definition dams_rewound (N : nat) (s : Locodams.state) : Locodams.state :=
  Locodams.State
    ((λ d, <["fill_alpha" := Floats (replicate N 0%Q)]> d) <$> Locodams.ds s)
    0 0 (Locodams.button_label s) (Locodams.periodic s).

(** The dams dashboard after [redraw2(0)] at cursor 0: in every opacity
    array zeros up to the last entry, which holds the high opacity. *)
Definition dams_wrapped (N : nat) (s : Locodams.state) : Locodams.state :=
  Locodams.State
    ((λ d, <["fill_alpha" := Floats (replicate (N - 1) 0%Q ++ [Locodams.hi])]> d)
       <$> Locodams.ds s)
    0 0 (Locodams.button_label s) (Locodams.periodic s).

(** The flow dashboard showing frame 0: the first marker lit, the tapes
    at zero, the line traces empty, cursor and slider at 0. *)
Definition flow_rewound (xvals : list (list Z)) (yvals : list (list Q))
    (s : Locoflow.state) : Locoflow.state :=
  Locoflow.State
    (Locoflow.Sources
       ((λ d, <["fill_alpha" := Floats (dots Locoflow.n 0)]> d)
          <$> Locoflow.points (Locoflow.ds s))
       ((λ d, <["fill_alpha" := Floats (replicate Locoflow.n 0%Q)]> d)
          <$> Locoflow.tapes (Locoflow.ds s))
       (<["ys" := FloatSeqs (py_slice_to 0 <$> yvals)]>
          (<["xs" := TimeSeqs (py_slice_to 0 <$> xvals)]>
             (Locoflow.lines (Locoflow.ds s)))))
    0 0 (Locoflow.button_label s) (Locoflow.periodic s).

(** ** Sample sessions *)

(** A data source as a glyph holds it before the first redraw: coordinate
    and size columns, and the two opacity columns at zero. *)
Definition sample_source (len : nat) : data :=
  {[ "x" := Times (Z.of_nat <$> seq 0 len);
     "size" := Floats (replicate len 1%Q);
     "fill_alpha" := Floats (replicate len 0%Q);
     "line_alpha" := Floats (replicate len 0%Q) ]}.

(** The dams dashboard over four tables of 72 hourly rows. *)
Definition dams_n : list nat := [72; 72; 72; 72]%nat.

Definition dams_start : Locodams.state :=
  Locodams.State (replicate 4 (sample_source 72)) 0 0 "Play" [].

(** The flow dashboard over nine sites of 145 hourly rows. *)
Definition flow_xvals : list (list Z) := replicate 9 (Z.of_nat <$> seq 0 145).
Definition flow_yvals : list (list Q) := replicate 9 (replicate 145 1%Q).

Definition flow_start : Locoflow.state :=
  Locoflow.State
    (Locoflow.Sources
       (replicate 9 (sample_source 145))
       (replicate 9 (sample_source 145))
       {[ "xs" := TimeSeqs (py_slice_to 1 <$> flow_xvals);
          "ys" := FloatSeqs (py_slice_to 1 <$> flow_yvals);
          "line_color" := Strings (replicate 9 "#1f77b4") ]})
    0 0 "Play" [].

(** * Properties *)

(** ** Sequences *)

Section Sequences.
Context {A : Type}.
Implicit Types (l : list A) (f : nat → A).

Lemma length_comprehension f m : length (comprehension f m) = m.
Proof. unfold comprehension. by rewrite length_fmap, length_seq. Qed.

Lemma lookup_comprehension f m i :
  (i < m)%nat → comprehension f m !! i = Some (f i).
Proof.
  intros Hi. unfold comprehension.
  rewrite list_lookup_fmap, lookup_seq_lt by done. done.
Qed.

Lemma comprehension_const (a : A) m : comprehension (λ _, a) m = replicate m a.
Proof.
  apply list_eq. intros i. destruct (decide (i < m)%nat) as [Hi|Hi].
  - rewrite lookup_comprehension, lookup_replicate_2; done.
  - rewrite !lookup_ge_None_2; [done | rewrite length_replicate; lia
                                | rewrite length_comprehension; lia].
Qed.

Lemma py_index_nonneg len i :
  (0 ≤ i < Z.of_nat len)%Z → py_index len i = Some (Z.to_nat i).
Proof. intros H. unfold py_index. by rewrite decide_True. Qed.

Lemma py_index_negative len i :
  (- Z.of_nat len ≤ i < 0)%Z → py_index len i = Some (Z.to_nat (Z.of_nat len + i)).
Proof.
  intros H. unfold py_index. rewrite decide_False by lia. by rewrite decide_True.
Qed.

Lemma py_index_out len i :
  (i < - Z.of_nat len ∨ Z.of_nat len ≤ i)%Z → py_index len i = None.
Proof. intros H. unfold py_index. rewrite !decide_False by lia. done. Qed.

Lemma py_setitem_length l i v l' :
  py_setitem l i v = inr l' → length l' = length l.
Proof.
  unfold py_setitem. destruct (py_index _ _); intros [= <-].
  apply length_insert.
Qed.

Lemma py_setitem_nonneg l i v :
  (0 ≤ i < Z.of_nat (length l))%Z →
  py_setitem l i v = inr (<[Z.to_nat i := v]> l).
Proof. intros H. unfold py_setitem. by rewrite py_index_nonneg. Qed.

Lemma py_setitem_out l i v :
  (i < - Z.of_nat (length l) ∨ Z.of_nat (length l) ≤ i)%Z →
  py_setitem l i v = inl IndexError.
Proof. intros H. unfold py_setitem. by rewrite py_index_out. Qed.

Lemma py_slice_to_nonneg k l :
  (0 ≤ k)%Z → py_slice_to k l = take (Z.to_nat k) l.
Proof. intros H. unfold py_slice_to. by rewrite decide_True. Qed.

Lemma py_slice_to_prefix k l :
  (0 ≤ k)%Z → py_slice_to k l `prefix_of` py_slice_to (k + 1) l.
Proof.
  intros H. rewrite !py_slice_to_nonneg by lia.
  replace (Z.to_nat (k + 1)) with (S (Z.to_nat k)) by lia.
  exists (drop (Z.to_nat k) (take (S (Z.to_nat k)) l)).
  rewrite <- (take_drop (Z.to_nat k) (take (S (Z.to_nat k)) l)) at 1.
  f_equal. rewrite take_take. f_equal. lia.
Qed.

End Sequences.

(** ** Loops over the data sources *)

Section Loops.
Implicit Types (body : nat → data → exn + data) (ds : list data).

Lemma for_enumerate_length body j ds :
  length (state_of (for_enumerate body j ds)) = length ds.
Proof.
  revert j. induction ds as [|d rest IH]; intros j; simpl; [done|].
  destruct (body j d); simpl; [done|].
  specialize (IH (S j)). destruct (for_enumerate body (S j) rest); simpl in *; lia.
Qed.

(** Whatever the outcome, each source is as it was or as the body made it. *)
Lemma for_enumerate_lookup body j ds i d' :
  state_of (for_enumerate body j ds) !! i = Some d' →
  ∃ d, ds !! i = Some d ∧ (d' = d ∨ body (j + i)%nat d = inr d').
Proof.
  revert j i. induction ds as [|d rest IH]; intros j i; simpl; [done|].
  destruct (body j d) as [e|d1] eqn:Hb; simpl.
  - intros H. exists d'. auto.
  - specialize (IH (S j)).
    assert (∀ i, state_of (for_enumerate body (S j) rest) !! i = Some d' →
              ∃ d, rest !! i = Some d ∧ (d' = d ∨ body (j + S i)%nat d = inr d')) as IH'.
    { intros i' H. destruct (IH i' H) as (d0 & ? & Hd0). exists d0. split; [done|].
      by replace (j + S i')%nat with (S j + i')%nat by lia. }
    destruct (for_enumerate body (S j) rest) as [rest'|e rest']; simpl in *;
      (destruct i as [|i]; simpl;
       [ intros [= <-]; exists d; split; [done|]; right;
         by replace (j + 0)%nat with j by lia
       | apply IH' ]).
Qed.

(** On return, every source is as the body made it. *)
Lemma for_enumerate_returned body j ds ds' i d' :
  for_enumerate body j ds = Returned ds' →
  ds' !! i = Some d' →
  ∃ d, ds !! i = Some d ∧ body (j + i)%nat d = inr d'.
Proof.
  revert j ds' i. induction ds as [|d rest IH]; intros j ds' i; simpl.
  - intros [= <-]. done.
  - destruct (body j d) as [e|d1] eqn:Hb; [done|].
    destruct (for_enumerate body (S j) rest) as [rest'|e rest'] eqn:Hr; [|done].
    intros [= <-]. destruct i as [|i]; simpl.
    + intros [= <-]. exists d. split; [done|]. by replace (j + 0)%nat with j by lia.
    + intros H. destruct (IH _ _ _ Hr H) as (d0 & ? & ?). exists d0. split; [done|].
      by replace (j + S i)%nat with (S j + i)%nat by lia.
Qed.

(** The loop returns when the body raises on no source. *)
Lemma for_enumerate_returns body j ds :
  (∀ i d, ds !! i = Some d → ∃ d', body (j + i)%nat d = inr d') →
  ∃ ds', for_enumerate body j ds = Returned ds'.
Proof.
  revert j. induction ds as [|d rest IH]; intros j Hb; simpl; [by eexists|].
  destruct (Hb 0%nat d eq_refl) as [d' Hd]. replace (j + 0)%nat with j in Hd by lia.
  rewrite Hd. destruct (IH (S j)) as [rest' ->]; [|by eexists].
  intros i d0 H. replace (S j + i)%nat with (j + S i)%nat by lia. by apply Hb.
Qed.

(** The loop raises at the first source on which the body raises. *)
Lemma for_enumerate_raises body j ds i d e :
  ds !! i = Some d → body (j + i)%nat d = inl e →
  ∃ e' ds', for_enumerate body j ds = Raised e' ds'.
Proof.
  revert j i. induction ds as [|d0 rest IH]; intros j i; simpl; [done|].
  destruct i as [|i]; simpl.
  - intros [= ->]. replace (j + 0)%nat with j by lia. intros ->. by do 2 eexists.
  - intros H Hb. destruct (body j d0); [by do 2 eexists|].
    replace (j + S i)%nat with (S j + i)%nat in Hb by lia.
    destruct (IH _ _ H Hb) as (e' & ds' & ->). by do 2 eexists.
Qed.

(** A body that never raises and ignores the position maps the sources. *)
Lemma for_enumerate_fmap body j ds (f : data → data) :
  (∀ i d, ds !! i = Some d → body (j + i)%nat d = inr (f d)) →
  for_enumerate body j ds = Returned (f <$> ds).
Proof.
  revert j. induction ds as [|d rest IH]; intros j Hb; simpl; [done|].
  pose proof (Hb 0%nat d eq_refl) as Hd. replace (j + 0)%nat with j in Hd by lia.
  rewrite Hd, (IH (S j)); [done|].
  intros i d0 H. replace (S j + i)%nat with (j + S i)%nat by lia. by apply Hb.
Qed.

End Loops.

(** ** Opacity arrays *)

Section Opacity.
Implicit Types (lo hi v : Q) (alpha : list Q) (d : data).

Lemma fill_alpha_insert d alpha :
  fill_alpha (<["fill_alpha" := Floats alpha]> d) = Some alpha.
Proof. unfold fill_alpha. by rewrite lookup_insert_eq. Qed.

Lemma count_opacity_app v alpha1 alpha2 :
  count_opacity v (alpha1 ++ alpha2)
  = (count_opacity v alpha1 + count_opacity v alpha2)%nat.
Proof. unfold count_opacity. by rewrite List.filter_app, length_app. Qed.

Lemma count_opacity_replicate v a m :
  count_opacity v (replicate m a) = if Qeq_bool v a then m else 0%nat.
Proof.
  unfold count_opacity. induction m as [|m IH]; simpl.
  - by destruct (Qeq_bool v a).
  - destruct (Qeq_bool v a); simpl; [by rewrite IH | done].
Qed.

Lemma count_opacity_cons v a alpha :
  count_opacity v (a :: alpha)
  = ((if Qeq_bool v a then 1 else 0) + count_opacity v alpha)%nat.
Proof. unfold count_opacity. simpl. by destruct (Qeq_bool v a). Qed.

Lemma Qeq_bool_refl v : Qeq_bool v v = true.
Proof. apply Qeq_bool_iff. reflexivity. Qed.

Lemma Qeq_bool_ne v a : ¬ (v == a)%Q → Qeq_bool v a = false.
Proof.
  intros H. destruct (Qeq_bool v a) eqn:E; [|done].
  by apply Qeq_bool_iff in E.
Qed.

Lemma length_trail lo hi N k : (1 ≤ k ≤ Z.of_nat N)%Z → length (trail lo hi N k) = N.
Proof.
  intros H. unfold trail. rewrite length_app, length_replicate. simpl.
  rewrite length_replicate. lia.
Qed.

Lemma lookup_trail lo hi N k i :
  (1 ≤ k ≤ Z.of_nat N)%Z → (i < N)%nat →
  trail lo hi N k !! i = Some (comet lo hi k i).
Proof.
  intros Hk Hi. unfold trail, comet.
  destruct (decide (Z.of_nat i < k - 1)%Z) as [Hlt|Hge].
  - rewrite lookup_app_l by (rewrite length_replicate; lia).
    rewrite lookup_replicate_2 by lia. by rewrite decide_False by lia.
  - rewrite lookup_app_r by (rewrite length_replicate; lia).
    rewrite length_replicate.
    destruct (decide (Z.of_nat i = k - 1)%Z) as [Heq|Hne].
    + by replace (i - Z.to_nat (k - 1))%nat with 0%nat by lia.
    + replace (i - Z.to_nat (k - 1))%nat
        with (S (i - Z.to_nat k))%nat by lia.
      simpl. by rewrite lookup_replicate_2 by lia.
Qed.

(** Lines 98-99 of the dams dashboard, lines 111-112 of the flow one: at
    a frame in [1, N] the comprehension and the assignment build [trail]. *)
Lemma setitem_trail lo hi N k :
  (1 ≤ k ≤ Z.of_nat N)%Z →
  py_setitem
    (comprehension (λ i, if decide (Z.of_nat i < k)%Z then lo else 0%Q) N)
    (k - 1) hi
  = inr (trail lo hi N k).
Proof.
  intros Hk. rewrite py_setitem_nonneg by (rewrite length_comprehension; lia).
  f_equal. apply list_eq. intros i.
  destruct (decide (i < N)%nat) as [Hi|Hi].
  - rewrite lookup_trail by done. unfold comet.
    destruct (decide (Z.of_nat i = k - 1)%Z) as [Heq|Hne].
    + replace i with (Z.to_nat (k - 1)) at 1 by lia.
      rewrite list_lookup_insert_eq; [done | rewrite length_comprehension; lia].
    + rewrite list_lookup_insert_ne by lia.
      rewrite lookup_comprehension by done.
      repeat case_decide; done || lia.
  - rewrite !lookup_ge_None_2; [done | rewrite length_trail; lia
                                | rewrite length_insert, length_comprehension; lia].
Qed.

Lemma count_trail lo hi N k :
  (1 ≤ k ≤ Z.of_nat N)%Z →
  ¬ (lo == hi)%Q → ¬ (lo == 0)%Q → ¬ (hi == 0)%Q →
  count_opacity hi (trail lo hi N k) = 1%nat ∧
  count_opacity lo (trail lo hi N k) = Z.to_nat (k - 1) ∧
  count_opacity 0%Q (trail lo hi N k) = (N - Z.to_nat k)%nat.
Proof.
  intros Hk Hlh Hl0 Hh0. unfold trail.
  rewrite !count_opacity_app, !count_opacity_cons, !count_opacity_replicate.
  assert (¬ (hi == lo)%Q ∧ ¬ (0 == lo)%Q ∧ ¬ (0 == hi)%Q) as (Hhl & H0l & H0h).
  { repeat split; intros E; symmetry in E; done. }
  rewrite !Qeq_bool_refl.
  rewrite (Qeq_bool_ne hi lo), (Qeq_bool_ne hi 0%Q), (Qeq_bool_ne lo hi),
    (Qeq_bool_ne lo 0%Q), (Qeq_bool_ne 0%Q lo), (Qeq_bool_ne 0%Q hi) by done.
  lia.
Qed.

Lemma comet_trail_insert lo hi N k d :
  (1 ≤ k ≤ Z.of_nat N)%Z →
  ¬ (lo == hi)%Q → ¬ (lo == 0)%Q → ¬ (hi == 0)%Q →
  comet_trail lo hi N k (<["fill_alpha" := Floats (trail lo hi N k)]> d).
Proof.
  intros Hk Hlh Hl0 Hh0. exists (trail lo hi N k).
  split; [apply fill_alpha_insert|].
  split; [by apply length_trail|].
  split; [intros i Hi; by apply lookup_trail|].
  by apply count_trail.
Qed.

End Opacity.

(** ** The comet-trail redraws *)

Section CometTrail.

Lemma dams_opacities_distinct :
  ¬ (Locodams.lo == Locodams.hi)%Q ∧ ¬ (Locodams.lo == 0)%Q ∧ ¬ (Locodams.hi == 0)%Q.
Proof. repeat split; intros E; discriminate E. Qed.

Lemma flow_opacities_distinct :
  ¬ (Locoflow.lo == Locoflow.hi)%Q ∧ ¬ (Locoflow.lo == 0)%Q ∧ ¬ (Locoflow.hi == 0)%Q.
Proof. repeat split; intros E; discriminate E. Qed.

Lemma redraw2_body_trail (nd : list nat) N k lo hi j (d : data) :
  nd !! j = Some N → (1 ≤ k ≤ Z.of_nat N)%Z →
  Locodams.redraw2_body nd k lo hi j d
  = inr (<["fill_alpha" := Floats (trail lo hi N k)]> d).
Proof.
  intros Hn Hk. unfold Locodams.redraw2_body. rewrite Hn. simpl.
  by rewrite setitem_trail.
Qed.

Lemma redraw_tapes_body_trail k lo hi j (d : data) :
  (1 ≤ k ≤ Z.of_nat Locoflow.n)%Z →
  Locoflow.redraw_tapes_body k lo hi j d
  = inr (<["fill_alpha" := Floats (trail lo hi Locoflow.n k)]> d).
Proof.
  intros Hk. unfold Locoflow.redraw_tapes_body. simpl.
  rewrite decide_True by lia. by rewrite setitem_trail.
Qed.

(** In-range frames of the dams dashboard: [redraw2] returns, and rewrites
    the opacity column of every source with the trail. *)
Lemma redraw2_in_range (nd : list nat) N k lo hi (s : Locodams.state) :
  (1 ≤ k ≤ Z.of_nat N)%Z →
  (length (Locodams.ds s) ≤ length nd)%nat →
  Forall (λ nj, nj = N) nd →
  Locodams.redraw2 nd k lo hi s
  = Returned (Locodams.set_ds
      ((λ d, <["fill_alpha" := Floats (trail lo hi N k)]> d) <$> Locodams.ds s) s).
Proof.
  intros Hk Hlen Hall. unfold Locodams.redraw2.
  rewrite (for_enumerate_fmap _ _ _
             (λ d, <["fill_alpha" := Floats (trail lo hi N k)]> d)); [done|].
  intros i d Hi. apply redraw2_body_trail; [|done].
  apply lookup_lt_Some in Hi. simpl.
  destruct (lookup_lt_is_Some_2 nd i) as [nj Hnj]; [lia|].
  rewrite Hnj. f_equal. by apply (Forall_lookup_1 _ _ _ _ Hall Hnj).
Qed.

(** In-range frames of the flow dashboard. *)
Lemma redraw_tapes_in_range k lo hi (s : Locoflow.state) :
  (1 ≤ k ≤ Z.of_nat Locoflow.n)%Z →
  Locoflow.redraw_tapes k lo hi s
  = Returned (Locoflow.set_tapes
      ((λ d, <["fill_alpha" := Floats (trail lo hi Locoflow.n k)]> d)
         <$> Locoflow.tapes (Locoflow.ds s)) s).
Proof.
  intros Hk. unfold Locoflow.redraw_tapes.
  rewrite (for_enumerate_fmap _ _ _
             (λ d, <["fill_alpha" := Floats (trail lo hi Locoflow.n k)]> d)); [done|].
  intros i d Hi. by apply redraw_tapes_body_trail.
Qed.

End CometTrail.

(** C4. At every frame [k] in [1, N - 1], the comet-trail redraw of either
    dashboard ([redraw2], [redraw_tapes]) returns and leaves in each
    element an opacity array of length [N] whose entry [k - 1] is the
    high opacity, whose entries [0 .. k - 2] are the low opacity and whose
    other entries are 0: one high entry, [k - 1] low ones. *)
Theorem comet_trail_redraw :
  (∀ (nd : list nat) (N : nat) (k : Z) (s : Locodams.state),
     (1 ≤ k ≤ Z.of_nat N - 1)%Z →
     (length (Locodams.ds s) ≤ length nd)%nat →
     Forall (λ nj, nj = N) nd →
     ∃ s', Locodams.redraw2 nd k Locodams.lo Locodams.hi s = Returned s' ∧
       length (Locodams.ds s') = length (Locodams.ds s) ∧
       Forall (comet_trail Locodams.lo Locodams.hi N k) (Locodams.ds s'))
  ∧
  (∀ (k : Z) (s : Locoflow.state),
     (1 ≤ k ≤ Z.of_nat Locoflow.n - 1)%Z →
     ∃ s', Locoflow.redraw_tapes k Locoflow.lo Locoflow.hi s = Returned s' ∧
       length (Locoflow.tapes (Locoflow.ds s'))
         = length (Locoflow.tapes (Locoflow.ds s)) ∧
       Forall (comet_trail Locoflow.lo Locoflow.hi Locoflow.n k)
         (Locoflow.tapes (Locoflow.ds s'))).
Proof.
  split.
  - intros nd N k s Hk Hlen Hall.
    destruct dams_opacities_distinct as (? & ? & ?).
    eexists. split; [apply (redraw2_in_range nd N); [lia | done..]|].
    simpl. split; [by rewrite length_fmap|].
    apply Forall_fmap, Forall_forall. intros d _. simpl.
    apply comet_trail_insert; [lia | done..].
  - intros k s Hk.
    destruct flow_opacities_distinct as (? & ? & ?).
    eexists. split; [apply redraw_tapes_in_range; lia|].
    simpl. split; [by rewrite length_fmap|].
    apply Forall_fmap, Forall_forall. intros d _. simpl.
    apply comet_trail_insert; [lia | done..].
Qed.

Lemma comet_trail_redraw_witness :
  (∃ s', Locodams.redraw2 dams_n 36 Locodams.lo Locodams.hi dams_start = Returned s' ∧
     length (Locodams.ds s') = length (Locodams.ds dams_start) ∧
     Forall (comet_trail Locodams.lo Locodams.hi 72 36) (Locodams.ds s'))
  ∧
  (∃ s', Locoflow.redraw_tapes 36 Locoflow.lo Locoflow.hi flow_start = Returned s' ∧
     length (Locoflow.tapes (Locoflow.ds s'))
       = length (Locoflow.tapes (Locoflow.ds flow_start)) ∧
     Forall (comet_trail Locoflow.lo Locoflow.hi Locoflow.n 36)
       (Locoflow.tapes (Locoflow.ds s'))).
Proof.
  split.
  - apply (proj1 comet_trail_redraw dams_n 72%nat 36%Z dams_start).
    + lia.
    + simpl. lia.
    + unfold dams_n. repeat constructor.
  - apply (proj2 comet_trail_redraw 36%Z flow_start).
    unfold Locoflow.n. lia.
Defined.

(** ** Frame 0 of the comet-trail redraws *)

Section FrameZero.

(** At frame 0 the comprehension gives zeros and the assignment goes to
    index -1, the last entry. *)
Lemma setitem_frame_zero (lo v : Q) (m : nat) :
  py_setitem
    (comprehension (λ i, if decide (Z.of_nat i < 0)%Z then lo else 0%Q) (S m))
    (0 - 1) v
  = inr (replicate m 0%Q ++ [v]).
Proof.
  unfold py_setitem. rewrite length_comprehension.
  rewrite py_index_negative by lia.
  replace (Z.to_nat (Z.of_nat (S m) + (0 - 1))) with m by lia.
  f_equal. apply list_eq. intros i.
  destruct (decide (i = m)) as [->|Hne].
  - rewrite list_lookup_insert_eq by (rewrite length_comprehension; lia).
    rewrite lookup_app_r by (rewrite length_replicate; lia).
    rewrite length_replicate. by replace (m - m)%nat with 0%nat by lia.
  - rewrite list_lookup_insert_ne by done.
    destruct (decide (i < m)%nat) as [Hi|Hi].
    + rewrite lookup_comprehension by lia.
      rewrite lookup_app_l by (rewrite length_replicate; lia).
      rewrite lookup_replicate_2 by done. by rewrite decide_False by lia.
    + rewrite !lookup_ge_None_2; [done | | rewrite length_comprehension; lia].
      rewrite length_app, length_replicate. simpl. lia.
Qed.

(** [redraw2(0)]: every source gets zeros with the high opacity last. *)
Lemma redraw2_frame_zero (nd : list nat) m lo hi (s : Locodams.state) :
  (length (Locodams.ds s) ≤ length nd)%nat →
  Forall (λ nj, nj = S m) nd →
  Locodams.redraw2 nd 0 lo hi s
  = Returned (Locodams.set_ds
      ((λ d, <["fill_alpha" := Floats (replicate m 0%Q ++ [hi])]> d)
         <$> Locodams.ds s) s).
Proof.
  intros Hlen Hall. unfold Locodams.redraw2.
  rewrite (for_enumerate_fmap _ _ _
             (λ d, <["fill_alpha" := Floats (replicate m 0%Q ++ [hi])]> d)); [done|].
  intros i d Hi. apply lookup_lt_Some in Hi. simpl.
  destruct (lookup_lt_is_Some_2 nd i) as [nj Hnj]; [lia|].
  rewrite (Forall_lookup_1 _ _ _ _ Hall Hnj) in Hnj.
  unfold Locodams.redraw2_body. rewrite Hnj. simpl.
  by rewrite setitem_frame_zero.
Qed.

End FrameZero.

Section NonPositiveFrames.

Lemma setitem_nonpositive_frame (lo : Q) (N : nat) (k : Z) :
  (- Z.of_nat N < k ≤ 0)%Z →
  py_setitem
    (comprehension (λ i, if decide (Z.of_nat i < k)%Z then lo else 0%Q) N)
    (k - 1) 0%Q
  = inr (replicate N 0%Q).
Proof.
  intros Hk. unfold py_setitem. rewrite length_comprehension.
  rewrite py_index_negative by lia. f_equal. apply list_eq. intros i.
  destruct (decide (i < N)%nat) as [Hi|Hi].
  - rewrite lookup_replicate_2 by done.
    destruct (decide (i = Z.to_nat (Z.of_nat N + (k - 1)))) as [->|Hne].
    + by rewrite list_lookup_insert_eq by (rewrite length_comprehension; lia).
    + rewrite list_lookup_insert_ne by done.
      rewrite lookup_comprehension by done. by rewrite decide_False by lia.
  - rewrite !lookup_ge_None_2; [done | rewrite length_replicate; lia
                                | rewrite length_insert, length_comprehension; lia].
Qed.

(** [redraw_tapes(k)] for [k] in [-144, 0]: zeros everywhere. *)
Lemma redraw_tapes_nonpositive k lo hi (s : Locoflow.state) :
  (- Z.of_nat Locoflow.n < k ≤ 0)%Z →
  Locoflow.redraw_tapes k lo hi s
  = Returned (Locoflow.set_tapes
      ((λ d, <["fill_alpha" := Floats (replicate Locoflow.n 0%Q)]> d)
         <$> Locoflow.tapes (Locoflow.ds s)) s).
Proof.
  intros Hk. unfold Locoflow.redraw_tapes.
  rewrite (for_enumerate_fmap _ _ _
             (λ d, <["fill_alpha" := Floats (replicate Locoflow.n 0%Q)]> d)); [done|].
  intros i d Hi. unfold Locoflow.redraw_tapes_body.
  rewrite (decide_False (P := (k > 0)%Z)) by lia.
  by rewrite setitem_nonpositive_frame by done.
Qed.

End NonPositiveFrames.

(** C1 (fails in the dams dashboard). [redraw2(0)] on four tables of 72
    rows returns with the last entry of every opacity array at the high
    opacity: index -1 wraps around, and no element is cleared. The flow
    dashboard's [redraw_tapes] guards the assignment with [k > 0]. *)
Theorem redraw2_frame_zero_highlights_last :
  ∃ s', Locodams.redraw2 dams_n 0 Locodams.lo Locodams.hi dams_start = Returned s' ∧
    length (Locodams.ds s') = 4%nat ∧
    Forall (λ d, fill_alpha d = Some (replicate 71 0%Q ++ [Locodams.hi]))
      (Locodams.ds s') ∧
    Forall (λ d, ¬ cleared d) (Locodams.ds s').
Proof.
  eexists. split.
  { apply (redraw2_frame_zero dams_n 71); [simpl; lia | repeat constructor]. }
  cbn [Locodams.ds Locodams.set_ds].
  split; [by rewrite length_fmap|]. split.
  - apply Forall_fmap, Forall_forall. intros d _. apply fill_alpha_insert.
  - apply Forall_fmap, Forall_forall. intros d _ (alpha & Ha & Hz).
    rewrite fill_alpha_insert in Ha.
    assert (alpha = replicate 71 0%Q ++ [Locodams.hi]) as -> by congruence.
    apply Forall_app in Hz as [_ Hz].
    apply Forall_inv in Hz. discriminate Hz.
Qed.

(** ** One frame of the flow dashboard *)

(** Reduce field accesses and sequencing, leave the arrays folded. *)
Ltac flow_fields :=
  cbn [bind state_of
       Locoflow.ds Locoflow.index Locoflow.slider_value Locoflow.button_label
       Locoflow.periodic Locoflow.points Locoflow.tapes Locoflow.lines
       Locoflow.set_points Locoflow.set_tapes Locoflow.set_lines
       Locoflow.set_index Locoflow.set_slider_value Locoflow.set_button_label
       Locoflow.set_periodic] in *.

Ltac dams_fields :=
  cbn [bind state_of
       Locodams.ds Locodams.index Locodams.slider_value Locodams.button_label
       Locodams.periodic
       Locodams.set_ds Locodams.set_index Locodams.set_slider_value
       Locodams.set_button_label Locodams.set_periodic] in *.

Section FlowFrames.
Variable xvals : list (list Z).
Variable yvals : list (list Q).
Implicit Types (s : Locoflow.state) (k : Z).

Lemma redraw_points_returns k s :
  Locoflow.redraw_points k s
  = Returned (Locoflow.set_points
      ((λ d, <["fill_alpha" := Floats (dots Locoflow.n k)]> d)
         <$> Locoflow.points (Locoflow.ds s)) s).
Proof.
  unfold Locoflow.redraw_points.
  by rewrite (for_enumerate_fmap _ _ _
                (λ d, <["fill_alpha" := Floats (dots Locoflow.n k)]> d)).
Qed.

(** Moving the slider to a frame in [1, n] shows that frame. *)
Lemma flow_slider_update_frame attrname old new s :
  (1 ≤ Locoflow.slider_value s ≤ Z.of_nat Locoflow.n)%Z →
  Locoflow.slider_update xvals yvals attrname old new s
  = Returned (flow_frame xvals yvals (Locoflow.slider_value s) s).
Proof.
  intros Hk. unfold Locoflow.slider_update.
  flow_fields. rewrite redraw_points_returns. flow_fields.
  rewrite redraw_tapes_in_range by done. done.
Qed.

(** Moving the slider to 0 shows frame 0. *)
Lemma flow_slider_update_zero attrname old new s :
  Locoflow.slider_value s = 0%Z →
  Locoflow.slider_update xvals yvals attrname old new s
  = Returned (flow_rewound xvals yvals s).
Proof.
  destruct s as [[ps ts ls] i v l doc]. flow_fields. intros ->.
  unfold Locoflow.slider_update.
  flow_fields. rewrite redraw_points_returns. flow_fields.
  by rewrite redraw_tapes_nonpositive by (unfold Locoflow.n; lia).
Qed.

(** A frame overwrites the one shown before it. *)
Lemma flow_frame_frame k k' s :
  flow_frame xvals yvals k (flow_frame xvals yvals k' s) = flow_frame xvals yvals k s.
Proof.
  unfold flow_frame. flow_fields. f_equal. f_equal.
  - rewrite <- list_fmap_compose. apply list_fmap_ext. intros i d _.
    apply insert_insert_eq.
  - rewrite <- list_fmap_compose. apply list_fmap_ext. intros i d _.
    apply insert_insert_eq.
  - apply map_eq. intros key.
    destruct (decide (key = "ys")) as [->|Hy]; [by rewrite !lookup_insert_eq|].
    rewrite !(lookup_insert_ne _ "ys") by done.
    destruct (decide (key = "xs")) as [->|Hx]; [by rewrite !lookup_insert_eq|].
    by rewrite !lookup_insert_ne by done.
Qed.

(** [slider.value = k] once frame [k] is drawn: the slider takes [k], and
    the [slider_update] it may call draws frame [k] again. *)
Lemma flow_assign_after_frame k v s :
  (1 ≤ k ≤ Z.of_nat Locoflow.n)%Z →
  Locoflow.assign_slider_value xvals yvals k
    (Locoflow.set_slider_value v (flow_frame xvals yvals k s))
  = Returned (flow_frame xvals yvals k s).
Proof.
  intros Hk. unfold Locoflow.assign_slider_value. case_decide as Hv.
  - unfold flow_frame in Hv. flow_fields. by subst v.
  - rewrite flow_slider_update_frame by (flow_fields; done).
    flow_fields. f_equal. exact (flow_frame_frame k k s).
Qed.

(** A tick before the end of the timeline shows the next frame. *)
Lemma flow_animate_step s :
  (0 ≤ Locoflow.index s < Z.of_nat Locoflow.n)%Z →
  Locoflow.animate xvals yvals s
  = Returned (flow_frame xvals yvals (Locoflow.index s + 1) s).
Proof.
  intros Hi. unfold Locoflow.animate. rewrite decide_True by lia.
  flow_fields. rewrite redraw_points_returns. flow_fields.
  rewrite redraw_tapes_in_range by lia.
  unfold Locoflow.redraw_lines. flow_fields.
  apply (flow_assign_after_frame (Locoflow.index s + 1) (Locoflow.slider_value s) s).
  lia.
Qed.

(** A tick at the end of the timeline rewinds the cursor; the slider, if
    it was not at 0 already, then has frame 0 drawn. *)
Lemma flow_animate_end s :
  ¬ (Locoflow.index s < Z.of_nat Locoflow.n)%Z →
  Locoflow.animate xvals yvals s
  = if decide (Locoflow.slider_value s = 0%Z)
    then Returned (Locoflow.set_index 0 s)
    else Returned (flow_rewound xvals yvals s).
Proof.
  intros Hi. unfold Locoflow.animate. rewrite decide_False by done.
  flow_fields. unfold Locoflow.assign_slider_value. flow_fields.
  case_decide; [done|]. by rewrite flow_slider_update_zero.
Qed.

Lemma flow_run_snoc es e s :
  Locoflow.run xvals yvals (es ++ [e]) s
  = Locoflow.deliver xvals yvals e (Locoflow.run xvals yvals es s).
Proof. unfold Locoflow.run. by rewrite foldl_snoc. Qed.

(** After [m] ticks from the start of the timeline, [1 ≤ m ≤ n], the
    dashboard shows frame [m]. *)
Lemma flow_ticks (m : nat) s :
  Locoflow.index s = 0%Z → (1 ≤ m ≤ Locoflow.n)%nat →
  Locoflow.run xvals yvals (replicate m Tick) s
  = flow_frame xvals yvals (Z.of_nat m) s.
Proof.
  intros H0 Hm. induction m as [|m IH]; [lia|].
  rewrite replicate_S_end, flow_run_snoc. cbn [Locoflow.deliver].
  destruct (decide (m = 0%nat)) as [->|Hne].
  - cbn [replicate Locoflow.run foldl].
    rewrite flow_animate_step by (rewrite H0; unfold Locoflow.n; lia).
    by rewrite H0.
  - rewrite IH by lia.
    rewrite flow_animate_step by (unfold flow_frame; flow_fields; lia).
    unfold flow_frame at 2. flow_fields. rewrite flow_frame_frame.
    f_equal. lia.
Qed.

End FlowFrames.

(** ** One frame of the dams dashboard *)

Section DamsFrames.
Variable nd : list nat.
Variable N : nat.
Hypothesis tables : Forall (λ nj, nj = N) nd.
Implicit Types (s : Locodams.state) (k : Z).

Lemma dams_table j : (j < length nd)%nat → nd !! j = Some N.
Proof.
  intros Hj. destruct (lookup_lt_is_Some_2 nd j Hj) as [nj Hnj].
  by rewrite (Forall_lookup_1 _ _ _ _ tables Hnj) in Hnj.
Qed.

(** Moving the slider to a frame in [1, N] shows that frame. *)
Lemma dams_slider_update_frame attrname old new s :
  (length (Locodams.ds s) ≤ length nd)%nat →
  (1 ≤ Locodams.slider_value s ≤ Z.of_nat N)%Z →
  Locodams.slider_update nd attrname old new s
  = Returned (dams_frame N (Locodams.slider_value s) s).
Proof.
  intros Hlen Hk. unfold Locodams.slider_update. dams_fields.
  by rewrite (redraw2_in_range nd N) by (done || lia).
Qed.

(** Moving the slider to 0 wraps: the last entry is highlighted. *)
Lemma dams_slider_update_zero attrname old new s :
  (1 ≤ N)%nat →
  (length (Locodams.ds s) ≤ length nd)%nat →
  Locodams.slider_value s = 0%Z →
  Locodams.slider_update nd attrname old new s = Returned (dams_wrapped N s).
Proof.
  destruct s as [ds0 i v l doc]. dams_fields. intros HN Hlen ->.
  unfold Locodams.slider_update. dams_fields.
  destruct N as [|m]; [lia|].
  rewrite (redraw2_frame_zero nd m) by done.
  unfold dams_wrapped. dams_fields.
  by replace (S m - 1)%nat with m by lia.
Qed.

(** A frame overwrites the one shown before it. *)
Lemma dams_frame_frame k k' s :
  dams_frame N k (dams_frame N k' s) = dams_frame N k s.
Proof.
  unfold dams_frame. dams_fields. f_equal.
  rewrite <- list_fmap_compose. apply list_fmap_ext. intros i d _.
  apply insert_insert_eq.
Qed.

(** [slider.value = k] once frame [k] is drawn: the slider takes [k], and
    the [slider_update] it may call draws frame [k] again. *)
Lemma dams_assign_after_frame k v s :
  (length (Locodams.ds s) ≤ length nd)%nat →
  (1 ≤ k ≤ Z.of_nat N)%Z →
  Locodams.assign_slider_value nd k
    (Locodams.set_slider_value v (dams_frame N k s))
  = Returned (dams_frame N k s).
Proof.
  intros Hlen Hk. unfold Locodams.assign_slider_value. case_decide as Hv.
  - unfold dams_frame in Hv. dams_fields. by subst v.
  - rewrite dams_slider_update_frame;
      [| unfold dams_frame; dams_fields; by rewrite length_fmap
       | dams_fields; done].
    dams_fields. f_equal. exact (dams_frame_frame k k s).
Qed.

(** A tick before the end of the timeline shows the next frame. *)
Lemma dams_animate_step s :
  (0 < length nd)%nat → (length (Locodams.ds s) ≤ length nd)%nat →
  (0 ≤ Locodams.index s < Z.of_nat N)%Z →
  Locodams.animate nd s = Returned (dams_frame N (Locodams.index s + 1) s).
Proof.
  intros Hnd Hlen Hi. unfold Locodams.animate. rewrite dams_table by done.
  rewrite decide_True by lia. dams_fields.
  rewrite (redraw2_in_range nd N) by (done || lia). dams_fields.
  apply (dams_assign_after_frame (Locodams.index s + 1) (Locodams.slider_value s) s);
    [done | lia].
Qed.

(** The clearing loop at the end of the timeline. *)
Lemma dams_clear_returns (ds0 : list data) :
  (length ds0 ≤ length nd)%nat →
  for_enumerate (Locodams.clear_body nd) 0 ds0
  = Returned ((λ d, <["fill_alpha" := Floats (replicate N 0%Q)]> d) <$> ds0).
Proof.
  intros Hlen.
  rewrite (for_enumerate_fmap _ _ _
             (λ d, <["fill_alpha" := Floats (replicate N 0%Q)]> d)); [done|].
  intros i d Hd. apply lookup_lt_Some in Hd. unfold Locodams.clear_body.
  cbn [Nat.add]. rewrite dams_table by lia. by rewrite comprehension_const.
Qed.

(** A tick at the end of the timeline with the slider at 0 clears the
    elements and rewinds. *)
Lemma dams_animate_end s :
  (0 < length nd)%nat → (length (Locodams.ds s) ≤ length nd)%nat →
  ¬ (Locodams.index s < Z.of_nat N)%Z →
  Locodams.slider_value s = 0%Z →
  Locodams.animate nd s = Returned (dams_rewound N s).
Proof.
  destruct s as [ds0 i v l doc]. dams_fields. intros Hnd Hlen Hi ->.
  unfold Locodams.animate. rewrite dams_table by done. dams_fields.
  rewrite decide_False by done. rewrite dams_clear_returns by done.
  dams_fields. unfold Locodams.assign_slider_value. dams_fields.
  by rewrite decide_True by done.
Qed.

(** With the slider elsewhere, setting it to 0 calls [slider_update],
    and [redraw2(0)] highlights the last entry of the cleared arrays. *)
Lemma dams_animate_end_wrapped s :
  (1 ≤ N)%nat →
  (0 < length nd)%nat → (length (Locodams.ds s) ≤ length nd)%nat →
  ¬ (Locodams.index s < Z.of_nat N)%Z →
  Locodams.slider_value s ≠ 0%Z →
  Locodams.animate nd s = Returned (dams_wrapped N s).
Proof.
  intros HN Hnd Hlen Hi Hv.
  unfold Locodams.animate. rewrite dams_table by done.
  rewrite decide_False by done. rewrite dams_clear_returns by done.
  dams_fields. unfold Locodams.assign_slider_value. dams_fields.
  rewrite decide_False by done.
  rewrite dams_slider_update_zero;
    [| done | dams_fields; by rewrite length_fmap | done].
  unfold dams_wrapped. dams_fields. do 2 f_equal.
  rewrite <- list_fmap_compose. apply list_fmap_ext. intros j d _.
  apply insert_insert_eq.
Qed.

Lemma dams_run_snoc es e s :
  Locodams.run nd (es ++ [e]) s
  = Locodams.deliver nd e (Locodams.run nd es s).
Proof. unfold Locodams.run. by rewrite foldl_snoc. Qed.

(** After [m] ticks from the start of the timeline, [1 ≤ m ≤ N], the
    dashboard shows frame [m]. *)
Lemma dams_ticks (m : nat) s :
  (0 < length nd)%nat → (length (Locodams.ds s) ≤ length nd)%nat →
  Locodams.index s = 0%Z → (1 ≤ m ≤ N)%nat →
  Locodams.run nd (replicate m Tick) s = dams_frame N (Z.of_nat m) s.
Proof.
  intros Hnd Hlen H0 Hm. induction m as [|m IH]; [lia|].
  rewrite replicate_S_end, dams_run_snoc. cbn [Locodams.deliver].
  destruct (decide (m = 0%nat)) as [->|Hne].
  - cbn [replicate Locodams.run foldl].
    rewrite dams_animate_step by (done || rewrite H0; lia).
    by rewrite H0.
  - rewrite IH by lia.
    rewrite dams_animate_step;
      [| done | unfold dams_frame; dams_fields; by rewrite length_fmap
       | unfold dams_frame; dams_fields; lia].
    unfold dams_frame at 2. dams_fields. rewrite dams_frame_frame.
    f_equal. lia.
Qed.

End DamsFrames.

(** ** The cursor *)

Section Cursor.

(** [slider_update] replaces data and sets the cursor to the slider's
    value, whether it returns or raises. *)
Lemma dams_slider_update_fields (nd : list nat) attrname old new (s : Locodams.state) :
  ∃ ds',
    state_of (Locodams.slider_update nd attrname old new s)
    = Locodams.State ds' (Locodams.slider_value s) (Locodams.slider_value s)
        (Locodams.button_label s) (Locodams.periodic s) ∧
    length ds' = length (Locodams.ds s).
Proof.
  unfold Locodams.slider_update, Locodams.redraw2. cbv zeta. dams_fields.
  pose proof (for_enumerate_length
    (Locodams.redraw2_body nd (Locodams.slider_value s) Locodams.lo Locodams.hi)
    0 (Locodams.ds s)) as Hl.
  destruct (for_enumerate _ _ _); eexists; (split; [reflexivity | exact Hl]).
Qed.

Lemma flow_slider_update_fields (xvals : list (list Z)) (yvals : list (list Q))
    attrname old new (s : Locoflow.state) :
  ∃ srcs,
    state_of (Locoflow.slider_update xvals yvals attrname old new s)
    = Locoflow.State srcs (Locoflow.slider_value s) (Locoflow.slider_value s)
        (Locoflow.button_label s) (Locoflow.periodic s).
Proof.
  unfold Locoflow.slider_update. cbv zeta.
  rewrite redraw_points_returns. flow_fields. unfold Locoflow.redraw_tapes.
  destruct (for_enumerate _ _ _); flow_fields; [|by eexists].
  unfold Locoflow.redraw_lines. flow_fields. by eexists.
Qed.

(** [slider.value = v] leaves the slider at [v]; the cursor is [v] after
    it when it was [v] before. *)
Lemma dams_assign_fields (nd : list nat) v (s : Locodams.state) :
  ∃ ds',
    state_of (Locodams.assign_slider_value nd v s)
    = Locodams.State ds'
        (if decide (Locodams.slider_value s = v) then Locodams.index s else v) v
        (Locodams.button_label s) (Locodams.periodic s) ∧
    length ds' = length (Locodams.ds s).
Proof.
  unfold Locodams.assign_slider_value. case_decide as Hv.
  - exists (Locodams.ds s). split; [|done]. destruct s. dams_fields. by subst v.
  - destruct (dams_slider_update_fields nd "value" (Locodams.slider_value s) v
                (Locodams.set_slider_value v s)) as (ds' & -> & Hl).
    by exists ds'.
Qed.

Lemma flow_assign_fields (xvals : list (list Z)) (yvals : list (list Q)) v
    (s : Locoflow.state) :
  ∃ srcs,
    state_of (Locoflow.assign_slider_value xvals yvals v s)
    = Locoflow.State srcs
        (if decide (Locoflow.slider_value s = v) then Locoflow.index s else v) v
        (Locoflow.button_label s) (Locoflow.periodic s).
Proof.
  unfold Locoflow.assign_slider_value. case_decide as Hv.
  - exists (Locoflow.ds s). destruct s. flow_fields. by subst v.
  - destruct (flow_slider_update_fields xvals yvals "value" (Locoflow.slider_value s) v
                (Locoflow.set_slider_value v s)) as (srcs & ->).
    by exists srcs.
Qed.

(** What [animate] leaves in the cursor, the button and the timers,
    whether it returns or raises. *)
Lemma dams_animate_fields (nd : list nat) (n0 : nat) (s : Locodams.state) :
  nd !! 0%nat = Some n0 →
  let s' := state_of (Locodams.animate nd s) in
  (Locodams.index s' = (if decide (Locodams.index s < Z.of_nat n0)%Z
                        then Locodams.index s + 1 else 0)%Z
   ∨ (¬ (Locodams.index s < Z.of_nat n0)%Z ∧ Locodams.index s' = Locodams.index s)) ∧
  Locodams.button_label s' = Locodams.button_label s ∧
  Locodams.periodic s' = Locodams.periodic s ∧
  length (Locodams.ds s') = length (Locodams.ds s).
Proof.
  intros Hn s'. subst s'. unfold Locodams.animate. rewrite Hn. case_decide as Hi.
  - cbv zeta. unfold Locodams.redraw2. dams_fields.
    pose proof (for_enumerate_length
      (Locodams.redraw2_body nd (Locodams.index s + 1) Locodams.lo Locodams.hi)
      0 (Locodams.ds s)) as Hl.
    destruct (for_enumerate _ _ _) as [ds1|e ds1]; dams_fields; [|by auto].
    destruct (dams_assign_fields nd (Locodams.index s + 1)
                (Locodams.set_ds ds1 (Locodams.set_index (Locodams.index s + 1) s)))
      as (ds' & -> & Hl').
    dams_fields. split; [left; by case_decide|]. split; [done|]. split; [done|].
    by rewrite Hl'.
  - pose proof (for_enumerate_length (Locodams.clear_body nd) 0 (Locodams.ds s)) as Hl.
    destruct (for_enumerate _ _ _) as [ds1|e ds1]; dams_fields; [|by auto].
    destruct (dams_assign_fields nd 0
                (Locodams.set_index 0 (Locodams.set_ds ds1 s)))
      as (ds' & -> & Hl').
    dams_fields. split; [left; by case_decide|]. split; [done|]. split; [done|].
    by rewrite Hl'.
Qed.

Lemma dams_animate_index (nd : list nat) (N : nat) (s : Locodams.state) :
  nd !! 0%nat = Some N →
  (0 ≤ Locodams.index s ≤ Z.of_nat N)%Z →
  (0 ≤ Locodams.index (state_of (Locodams.animate nd s)) ≤ Z.of_nat N)%Z.
Proof.
  intros Hn Hi. destruct (dams_animate_fields nd N s Hn) as ([H|[_ H]] & _).
  - rewrite H. case_decide; lia.
  - by rewrite H.
Qed.

Lemma dams_slider_update_index (nd : list nat) attrname old new (s : Locodams.state) :
  Locodams.index (state_of (Locodams.slider_update nd attrname old new s))
  = Locodams.slider_value s.
Proof.
  by destruct (dams_slider_update_fields nd attrname old new s) as (ds' & -> & _).
Qed.

Lemma dams_update_fields fps (s : Locodams.state) :
  let s' := state_of (Locodams.update fps s) in
  Locodams.ds s' = Locodams.ds s ∧
  Locodams.index s' = Locodams.index s ∧
  Locodams.slider_value s' = Locodams.slider_value s.
Proof.
  intros s'. subst s'. unfold Locodams.update. repeat case_decide; try done.
  cbv zeta. by destruct (remove_periodic_callback _ _).
Qed.

Lemma dams_update_index fps (s : Locodams.state) :
  Locodams.index (state_of (Locodams.update fps s)) = Locodams.index s.
Proof. by destruct (dams_update_fields fps s) as (_ & ? & _). Qed.

Lemma flow_animate_fields (xvals : list (list Z)) (yvals : list (list Q))
    (s : Locoflow.state) :
  let s' := state_of (Locoflow.animate xvals yvals s) in
  Locoflow.index s' = (if decide (Locoflow.index s < Z.of_nat Locoflow.n)%Z
                       then Locoflow.index s + 1 else 0)%Z ∧
  Locoflow.button_label s' = Locoflow.button_label s ∧
  Locoflow.periodic s' = Locoflow.periodic s.
Proof.
  intros s'. subst s'. unfold Locoflow.animate. case_decide as Hi.
  - cbv zeta. rewrite redraw_points_returns. flow_fields.
    unfold Locoflow.redraw_tapes.
    destruct (for_enumerate _ _ _) as [ts|e ts]; flow_fields; [|done].
    unfold Locoflow.redraw_lines. flow_fields.
    match goal with
    | |- context [Locoflow.assign_slider_value _ _ ?v ?x] =>
        destruct (flow_assign_fields xvals yvals v x) as (srcs & ->)
    end.
    flow_fields. split; [by case_decide | done].
  - flow_fields.
    destruct (flow_assign_fields xvals yvals 0 (Locoflow.set_index 0 s))
      as (srcs & ->).
    flow_fields. split; [by case_decide | done].
Qed.

Lemma flow_animate_index (xvals : list (list Z)) (yvals : list (list Q))
    (s : Locoflow.state) :
  Locoflow.index (state_of (Locoflow.animate xvals yvals s))
  = if decide (Locoflow.index s < Z.of_nat Locoflow.n)%Z
    then (Locoflow.index s + 1)%Z else 0%Z.
Proof. by destruct (flow_animate_fields xvals yvals s) as (? & _). Qed.

Lemma flow_slider_update_index (xvals : list (list Z)) (yvals : list (list Q))
    attrname old new (s : Locoflow.state) :
  Locoflow.index (state_of (Locoflow.slider_update xvals yvals attrname old new s))
  = Locoflow.slider_value s.
Proof.
  by destruct (flow_slider_update_fields xvals yvals attrname old new s) as (srcs & ->).
Qed.

Lemma flow_update_fields fps (s : Locoflow.state) :
  let s' := state_of (Locoflow.update fps s) in
  Locoflow.ds s' = Locoflow.ds s ∧
  Locoflow.index s' = Locoflow.index s ∧
  Locoflow.slider_value s' = Locoflow.slider_value s.
Proof.
  intros s'. subst s'. unfold Locoflow.update. repeat case_decide; try done.
  cbv zeta. by destruct (remove_periodic_callback _ _).
Qed.

Lemma flow_update_index fps (s : Locoflow.state) :
  Locoflow.index (state_of (Locoflow.update fps s)) = Locoflow.index s.
Proof. by destruct (flow_update_fields fps s) as (_ & ? & _). Qed.

End Cursor.

Section CursorInvariant.

Lemma dams_deliver_index (nd : list nat) (N : nat) e (s : Locodams.state) :
  nd !! 0%nat = Some N →
  match e with Scrub k => (0 ≤ k ≤ Z.of_nat N)%Z | _ => True end →
  (0 ≤ Locodams.index s ≤ Z.of_nat N)%Z →
  (0 ≤ Locodams.index (Locodams.deliver nd e s) ≤ Z.of_nat N)%Z.
Proof.
  intros Hn He Hi. destruct e as [|k|]; cbn [Locodams.deliver].
  - by apply dams_animate_index.
  - by rewrite dams_slider_update_index.
  - by rewrite dams_update_index.
Qed.

Lemma dams_run_index (nd : list nat) (N : nat) es (s : Locodams.state) :
  nd !! 0%nat = Some N → scrubs_within (Z.of_nat N) es →
  (0 ≤ Locodams.index s ≤ Z.of_nat N)%Z →
  (0 ≤ Locodams.index (Locodams.run nd es s) ≤ Z.of_nat N)%Z.
Proof.
  intros Hn Hes. revert s. induction Hes as [|e es He Hes IH]; intros s Hi; [done|].
  unfold Locodams.run. cbn [foldl]. apply IH. by apply dams_deliver_index.
Qed.

Lemma flow_deliver_index xvals yvals e (s : Locoflow.state) :
  match e with Scrub k => (0 ≤ k ≤ Z.of_nat Locoflow.n)%Z | _ => True end →
  (0 ≤ Locoflow.index s ≤ Z.of_nat Locoflow.n)%Z →
  (0 ≤ Locoflow.index (Locoflow.deliver xvals yvals e s) ≤ Z.of_nat Locoflow.n)%Z.
Proof.
  intros He Hi. destruct e as [|k|]; cbn [Locoflow.deliver].
  - rewrite flow_animate_index. case_decide; lia.
  - by rewrite flow_slider_update_index.
  - by rewrite flow_update_index.
Qed.

Lemma flow_run_index xvals yvals es (s : Locoflow.state) :
  scrubs_within (Z.of_nat Locoflow.n) es →
  (0 ≤ Locoflow.index s ≤ Z.of_nat Locoflow.n)%Z →
  (0 ≤ Locoflow.index (Locoflow.run xvals yvals es s) ≤ Z.of_nat Locoflow.n)%Z.
Proof.
  intros Hes. revert s. induction Hes as [|e es He Hes IH]; intros s Hi; [done|].
  unfold Locoflow.run. cbn [foldl]. apply IH. by apply flow_deliver_index.
Qed.

End CursorInvariant.

(** C5. In both dashboards the cursor stays within [0, N] through every
    sequence of timer ticks, button clicks and slider moves to a frame in
    [0, N], and a tick at [index = N] takes it back to 0. [N] is [n[0]]
    in the dams dashboard and [n] in the flow dashboard. *)
Theorem frame_index_invariant :
  (∀ (nd : list nat) (N : nat) (es : list event) (s : Locodams.state),
     nd !! 0%nat = Some N →
     (0 ≤ Locodams.index s ≤ Z.of_nat N)%Z →
     scrubs_within (Z.of_nat N) es →
     (0 ≤ Locodams.index (Locodams.run nd es s) ≤ Z.of_nat N)%Z)
  ∧
  (∀ (nd : list nat) (N : nat) (s : Locodams.state),
     nd !! 0%nat = Some N →
     (length (Locodams.ds s) ≤ length nd)%nat →
     Locodams.index s = Z.of_nat N →
     Locodams.index (state_of (Locodams.animate nd s)) = 0%Z)
  ∧
  (∀ (xvals : list (list Z)) (yvals : list (list Q)) (es : list event)
     (s : Locoflow.state),
     (0 ≤ Locoflow.index s ≤ Z.of_nat Locoflow.n)%Z →
     scrubs_within (Z.of_nat Locoflow.n) es →
     (0 ≤ Locoflow.index (Locoflow.run xvals yvals es s) ≤ Z.of_nat Locoflow.n)%Z)
  ∧
  (∀ (xvals : list (list Z)) (yvals : list (list Q)) (s : Locoflow.state),
     Locoflow.index s = Z.of_nat Locoflow.n →
     Locoflow.index (state_of (Locoflow.animate xvals yvals s)) = 0%Z).
Proof.
  split; [|split; [|split]].
  - intros nd N es s Hn Hi Hes. by apply dams_run_index.
  - intros nd N s Hn Hlen Hi. unfold Locodams.animate. rewrite Hn.
    rewrite decide_False by lia.
    destruct (for_enumerate_returns (Locodams.clear_body nd) 0 (Locodams.ds s))
      as [ds' ->].
    { intros i d Hd. apply lookup_lt_Some in Hd. unfold Locodams.clear_body.
      destruct (lookup_lt_is_Some_2 nd (0 + i)) as [nj ->]; [lia|]. by eexists. }
    dams_fields.
    destruct (dams_assign_fields nd 0 (Locodams.set_index 0 (Locodams.set_ds ds' s)))
      as (ds'' & -> & _).
    dams_fields. by case_decide.
  - intros xvals yvals es s Hi Hes. by apply flow_run_index.
  - intros xvals yvals s Hi. rewrite flow_animate_index.
    by rewrite decide_False by lia.
Qed.

Lemma frame_index_invariant_witness :
  (0 ≤ Locodams.index
         (Locodams.run dams_n [Tick; Scrub 72; Tick; Tick; Click; Scrub 0; Tick]
            dams_start) ≤ 72)%Z
  ∧
  Locodams.index
    (state_of (Locodams.animate dams_n (Locodams.set_index 72 dams_start))) = 0%Z
  ∧
  (0 ≤ Locoflow.index
         (Locoflow.run flow_xvals flow_yvals
            [Tick; Scrub 145; Tick; Tick; Click; Scrub 0; Tick] flow_start)
     ≤ 145)%Z
  ∧
  Locoflow.index
    (state_of (Locoflow.animate flow_xvals flow_yvals
                 (Locoflow.set_index 145 flow_start))) = 0%Z.
Proof.
  destruct frame_index_invariant as (Hd & Hdw & Hf & Hfw).
  split; [|split; [|split]].
  - apply (Hd dams_n 72%nat); [reflexivity | simpl; lia |].
    unfold scrubs_within. repeat constructor; lia.
  - apply (Hdw dams_n 72%nat); [reflexivity | simpl; lia | reflexivity].
  - apply (Hf flow_xvals flow_yvals); [simpl; lia |].
    unfold scrubs_within, Locoflow.n. repeat constructor; lia.
  - apply (Hfw flow_xvals flow_yvals). reflexivity.
Defined.

(** ** The single-point redraw *)

Section SinglePoint.

Lemma length_dots N k : length (dots N k) = N.
Proof. apply length_comprehension. Qed.

Lemma lookup_dots N k i :
  (i < N)%nat →
  dots N k !! i = Some (if decide (Z.of_nat i = k) then 1%Q else 0%Q).
Proof. intros Hi. unfold dots. by rewrite lookup_comprehension. Qed.

(** Within the array the dot is at position [k]. *)
Lemma dots_in_range N k :
  (0 ≤ k < Z.of_nat N)%Z →
  dots N k = replicate (Z.to_nat k) 0%Q ++ 1%Q :: replicate (N - Z.to_nat k - 1) 0%Q.
Proof.
  intros Hk. apply list_eq. intros i.
  destruct (decide (i < N)%nat) as [Hi|Hi].
  - rewrite lookup_dots by done.
    destruct (decide (i < Z.to_nat k)%nat) as [Hlt|Hge].
    + rewrite lookup_app_l by (rewrite length_replicate; lia).
      rewrite lookup_replicate_2 by done. by rewrite decide_False by lia.
    + rewrite lookup_app_r by (rewrite length_replicate; lia).
      rewrite length_replicate.
      destruct (decide (Z.of_nat i = k)) as [Heq|Hne].
      * by replace (i - Z.to_nat k)%nat with 0%nat by lia.
      * replace (i - Z.to_nat k)%nat with (S (i - Z.to_nat k - 1))%nat by lia.
        simpl. by rewrite lookup_replicate_2 by lia.
  - rewrite !lookup_ge_None_2; [done | | rewrite length_dots; lia].
    rewrite length_app, length_replicate. simpl. rewrite length_replicate. lia.
Qed.

(** Outside it there is no dot. *)
Lemma dots_out_of_range N k :
  ¬ (0 ≤ k < Z.of_nat N)%Z → dots N k = replicate N 0%Q.
Proof.
  intros Hk. apply list_eq. intros i.
  destruct (decide (i < N)%nat) as [Hi|Hi].
  - rewrite lookup_dots, lookup_replicate_2 by done. by rewrite decide_False by lia.
  - rewrite !lookup_ge_None_2; [done | rewrite length_replicate; lia
                                | rewrite length_dots; lia].
Qed.

Lemma count_dots N k :
  count_opacity 1%Q (dots N k)
  = if decide (0 ≤ k < Z.of_nat N)%Z then 1%nat else 0%nat.
Proof.
  case_decide as Hk.
  - rewrite dots_in_range by done.
    rewrite count_opacity_app, count_opacity_cons, !count_opacity_replicate.
    reflexivity.
  - rewrite dots_out_of_range by done. by rewrite count_opacity_replicate.
Qed.

Lemma single_point_insert N k (d : data) :
  single_point N k (<["fill_alpha" := Floats (dots N k)]> d).
Proof.
  exists (dots N k). split; [apply fill_alpha_insert|].
  split; [apply length_dots|]. intros i Hi. by apply lookup_dots.
Qed.

Lemma visible_points_insert N k (d : data) :
  visible_points (<["fill_alpha" := Floats (dots N k)]> d)
  = if decide (0 ≤ k < Z.of_nat N)%Z then 1%nat else 0%nat.
Proof. unfold visible_points. rewrite fill_alpha_insert. apply count_dots. Qed.

Lemma cleared_insert_zeros N (d : data) :
  cleared (<["fill_alpha" := Floats (replicate N 0%Q)]> d).
Proof.
  exists (replicate N 0%Q). split; [apply fill_alpha_insert|].
  by apply Forall_replicate.
Qed.

End SinglePoint.

(** C7, amended. For every [k], [redraw_points(k)] returns and gives each
    marker an opacity array over the 145 observations with 1 at position
    [k] and 0 elsewhere; so one point is visible when [0 ≤ k ≤ 144] and
    none otherwise, in particular none at frame 145. *)
Theorem single_point_redraw (k : Z) (s : Locoflow.state) :
  ∃ s', Locoflow.redraw_points k s = Returned s' ∧
    length (Locoflow.points (Locoflow.ds s'))
      = length (Locoflow.points (Locoflow.ds s)) ∧
    Forall (single_point Locoflow.n k) (Locoflow.points (Locoflow.ds s')) ∧
    Forall (λ d, visible_points d
                 = if decide (0 ≤ k ≤ 144)%Z then 1%nat else 0%nat)
      (Locoflow.points (Locoflow.ds s')).
Proof.
  eexists. split; [apply redraw_points_returns|]. flow_fields.
  split; [by rewrite length_fmap|]. split.
  - apply Forall_fmap, Forall_forall. intros d _. apply single_point_insert.
  - apply Forall_fmap, Forall_forall. intros d _. cbn [compose].
    rewrite visible_points_insert. unfold Locoflow.n.
    repeat case_decide; done || lia.
Qed.

(** C7 as stated fails at frame 145, which 145 ticks from the start
    reach: no marker has a visible point there. *)
Lemma single_point_hidden_at_145 :
  Locoflow.index
    (Locoflow.run flow_xvals flow_yvals (replicate 145 Tick) flow_start) = 145%Z
  ∧
  ¬ Forall (λ d, visible_points d = 1%nat)
      (Locoflow.points
         (Locoflow.ds
            (Locoflow.run flow_xvals flow_yvals (replicate 145 Tick) flow_start))).
Proof.
  rewrite (flow_ticks flow_xvals flow_yvals 145) by (done || unfold Locoflow.n; lia).
  split; [done|]. intros H. unfold flow_frame in H. flow_fields.
  apply Forall_fmap in H.
  apply (Forall_lookup_1 _ _ 0%nat (sample_source 145)) in H; [|done].
  cbn [compose] in H. rewrite visible_points_insert in H. discriminate H.
Qed.

(** ** The end of the timeline *)

Section EndOfTimeline.

Lemma not_cleared_insert_dots (N : nat) (k : Z) (d : data) :
  (0 ≤ k < Z.of_nat N)%Z →
  ¬ cleared (<["fill_alpha" := Floats (dots N k)]> d).
Proof.
  intros Hk (alpha & Ha & Hz). rewrite fill_alpha_insert in Ha.
  assert (alpha = dots N k) as -> by congruence.
  pose proof (lookup_dots N k (Z.to_nat k)) as Hl.
  rewrite decide_True in Hl by lia.
  apply (Forall_lookup_1 _ _ _ _ Hz) in Hl; [discriminate Hl | lia].
Qed.

Lemma wrapped_array (N : nat) (hi : Q) (d : data) :
  (1 ≤ N)%nat →
  ∃ alpha,
    fill_alpha (<["fill_alpha" := Floats (replicate (N - 1) 0%Q ++ [hi])]> d)
      = Some alpha ∧
    length alpha = N ∧
    ∀ i, (i < N - 1)%nat → alpha !! i = Some 0%Q.
Proof.
  intros HN. eexists. split; [apply fill_alpha_insert|]. split.
  - rewrite length_app, length_replicate. simpl. lia.
  - intros i Hi. rewrite lookup_app_l by (rewrite length_replicate; lia).
    by apply lookup_replicate_2.
Qed.

Lemma slices_empty {A : Type} (vals : list (list A)) :
  Forall (λ p, p = []) (py_slice_to 0 <$> vals).
Proof. apply Forall_fmap, Forall_forall. intros l _. apply take_0. Qed.

(** The tick after the last frame of the flow dashboard. *)
Lemma flow_animate_after_last xvals yvals (s : Locoflow.state) :
  Locoflow.animate xvals yvals (flow_frame xvals yvals (Z.of_nat 145) s)
  = Returned (flow_rewound xvals yvals (flow_frame xvals yvals (Z.of_nat 145) s)).
Proof.
  rewrite flow_animate_end by (unfold flow_frame, Locoflow.n; flow_fields; lia).
  by rewrite decide_False by (unfold flow_frame; flow_fields; lia).
Qed.

End EndOfTimeline.

(** C2 as stated fails: after 145 ticks of the flow dashboard the call of
    [animate] at [index = 145] rewinds the cursor and, through the
    slider, redraws frame 0, in which the first marker of every site is
    lit; the marker opacity arrays are not all zeros. *)
Lemma animate_at_end_lights_marker :
  ¬ (Locoflow.index
       (state_of (Locoflow.animate flow_xvals flow_yvals
          (Locoflow.run flow_xvals flow_yvals (replicate 145 Tick) flow_start)))
     = 0%Z
     ∧ Forall cleared
         (Locoflow.points (Locoflow.ds
            (state_of (Locoflow.animate flow_xvals flow_yvals
               (Locoflow.run flow_xvals flow_yvals (replicate 145 Tick) flow_start)))))
     ∧ Forall cleared
         (Locoflow.tapes (Locoflow.ds
            (state_of (Locoflow.animate flow_xvals flow_yvals
               (Locoflow.run flow_xvals flow_yvals (replicate 145 Tick) flow_start)))))).
Proof.
  rewrite (flow_ticks flow_xvals flow_yvals 145) by (done || unfold Locoflow.n; lia).
  rewrite flow_animate_after_last.
  unfold flow_rewound, flow_frame. flow_fields. intros (_ & Hp & _).
  rewrite !Forall_fmap in Hp.
  apply (Forall_lookup_1 _ _ 0%nat (sample_source 145)) in Hp; [|done].
  cbn [compose] in Hp. revert Hp. apply not_cleared_insert_dots.
  unfold Locoflow.n. lia.
Qed.

(** C2, amended. In both dashboards [animate] called at [index = N] with
    the slider away from 0, where playing to the end leaves it, returns
    with cursor and slider at 0. In the flow dashboard every tape opacity
    array is then all zeros and every visible path empty, and every
    marker array shows frame 0: 1 at position 0, 0 elsewhere. In the dams
    dashboard, over tables of [N ≥ 1] rows each, every opacity array has
    length [N] and zeros at the positions [0 .. N - 2]. *)
Theorem animate_at_end :
  (∀ (nd : list nat) (N : nat) (s : Locodams.state),
     Forall (λ nj, nj = N) nd →
     (1 ≤ N)%nat →
     (0 < length nd)%nat →
     (length (Locodams.ds s) ≤ length nd)%nat →
     Locodams.index s = Z.of_nat N →
     Locodams.slider_value s ≠ 0%Z →
     ∃ s', Locodams.animate nd s = Returned s' ∧
       Locodams.index s' = 0%Z ∧
       Locodams.slider_value s' = 0%Z ∧
       length (Locodams.ds s') = length (Locodams.ds s) ∧
       Forall (λ d, ∃ alpha, fill_alpha d = Some alpha ∧ length alpha = N ∧
                      ∀ i, (i < N - 1)%nat → alpha !! i = Some 0%Q)
         (Locodams.ds s'))
  ∧
  (∀ (xvals : list (list Z)) (yvals : list (list Q)) (s : Locoflow.state),
     Locoflow.index s = Z.of_nat Locoflow.n →
     Locoflow.slider_value s ≠ 0%Z →
     ∃ s', Locoflow.animate xvals yvals s = Returned s' ∧
       Locoflow.index s' = 0%Z ∧
       Locoflow.slider_value s' = 0%Z ∧
       length (Locoflow.tapes (Locoflow.ds s'))
         = length (Locoflow.tapes (Locoflow.ds s)) ∧
       length (Locoflow.points (Locoflow.ds s'))
         = length (Locoflow.points (Locoflow.ds s)) ∧
       Forall cleared (Locoflow.tapes (Locoflow.ds s')) ∧
       Forall (single_point Locoflow.n 0) (Locoflow.points (Locoflow.ds s')) ∧
       length (visible_xs (Locoflow.lines (Locoflow.ds s'))) = length xvals ∧
       length (visible_ys (Locoflow.lines (Locoflow.ds s'))) = length yvals ∧
       Forall (λ p, p = []) (visible_xs (Locoflow.lines (Locoflow.ds s'))) ∧
       Forall (λ p, p = []) (visible_ys (Locoflow.lines (Locoflow.ds s')))).
Proof.
  split.
  - intros nd N s Hall HN Hnd Hlen Hi Hv. eexists.
    split; [apply (dams_animate_end_wrapped nd N); done || lia|].
    unfold dams_wrapped. dams_fields. split; [done|]. split; [done|].
    split; [by rewrite length_fmap|].
    apply Forall_fmap, Forall_forall. intros d _. by apply wrapped_array.
  - intros xvals yvals s Hi Hv. eexists. split.
    { rewrite flow_animate_end by lia. by rewrite decide_False by done. }
    unfold flow_rewound, visible_xs, visible_ys. flow_fields.
    rewrite lookup_insert_eq, lookup_insert_ne, lookup_insert_eq by done.
    split; [done|]. split; [done|].
    split; [by rewrite length_fmap|]. split; [by rewrite length_fmap|].
    split; [apply Forall_fmap, Forall_forall; intros d _; apply cleared_insert_zeros|].
    split; [apply Forall_fmap, Forall_forall; intros d _; apply single_point_insert|].
    split; [by rewrite length_fmap|]. split; [by rewrite length_fmap|].
    split; apply slices_empty.
Qed.

Lemma animate_at_end_witness :
  (∃ s', Locodams.animate dams_n
           (Locodams.set_slider_value 72 (Locodams.set_index 72 dams_start))
         = Returned s' ∧
     Locodams.index s' = 0%Z)
  ∧
  (∃ s', Locoflow.animate flow_xvals flow_yvals
           (Locoflow.set_slider_value 145 (Locoflow.set_index 145 flow_start))
         = Returned s' ∧
     Locoflow.index s' = 0%Z ∧
     Forall cleared (Locoflow.tapes (Locoflow.ds s'))).
Proof.
  split.
  - destruct (proj1 animate_at_end dams_n 72%nat
                (Locodams.set_slider_value 72 (Locodams.set_index 72 dams_start)))
      as (s' & Hs' & Hi & _).
    + unfold dams_n. repeat constructor.
    + lia.
    + simpl. lia.
    + simpl. lia.
    + reflexivity.
    + discriminate.
    + exists s'. split; [exact Hs' | exact Hi].
  - destruct (proj2 animate_at_end flow_xvals flow_yvals
                (Locoflow.set_slider_value 145 (Locoflow.set_index 145 flow_start)))
      as (s' & Hs' & Hi & _ & _ & _ & Hc & _).
    + reflexivity.
    + discriminate.
    + exists s'. split; [exact Hs'|]. split; [exact Hi | exact Hc].
Defined.

(** C3 as stated fails: after 144 ticks from the start the cursor of the
    flow dashboard is at 144, not back at 0. *)
Lemma flow_144_ticks_not_rewound :
  ¬ (Locoflow.index
       (Locoflow.run flow_xvals flow_yvals (replicate 144 Tick) flow_start) = 0%Z
     ∧ Forall cleared
         (Locoflow.points
            (Locoflow.ds
               (Locoflow.run flow_xvals flow_yvals (replicate 144 Tick) flow_start)))
     ∧ Forall cleared
         (Locoflow.tapes
            (Locoflow.ds
               (Locoflow.run flow_xvals flow_yvals (replicate 144 Tick) flow_start)))).
Proof.
  rewrite (flow_ticks flow_xvals flow_yvals 144) by (done || unfold Locoflow.n; lia).
  intros [H _]. discriminate H.
Qed.

(** C3, amended. In the flow dashboard, from [index = 0] and without
    scrubbing, [m] calls of [animate] leave the cursor at [m] for every
    [m ≤ 145]; the 146th call takes cursor and slider back to 0 and
    leaves every tape opacity array all zeros, while every marker array
    shows frame 0: 1 at position 0, 0 elsewhere. *)
Theorem flow_timeline_cycle (xvals : list (list Z)) (yvals : list (list Q))
    (s : Locoflow.state) :
  Locoflow.index s = 0%Z →
  (∀ m : nat, (m ≤ 145)%nat →
     Locoflow.index (Locoflow.run xvals yvals (replicate m Tick) s) = Z.of_nat m) ∧
  Locoflow.index (Locoflow.run xvals yvals (replicate 146 Tick) s) = 0%Z ∧
  Locoflow.slider_value (Locoflow.run xvals yvals (replicate 146 Tick) s) = 0%Z ∧
  length (Locoflow.tapes (Locoflow.ds (Locoflow.run xvals yvals (replicate 146 Tick) s)))
    = length (Locoflow.tapes (Locoflow.ds s)) ∧
  length (Locoflow.points (Locoflow.ds (Locoflow.run xvals yvals (replicate 146 Tick) s)))
    = length (Locoflow.points (Locoflow.ds s)) ∧
  Forall cleared
    (Locoflow.tapes (Locoflow.ds (Locoflow.run xvals yvals (replicate 146 Tick) s))) ∧
  Forall (single_point Locoflow.n 0)
    (Locoflow.points (Locoflow.ds (Locoflow.run xvals yvals (replicate 146 Tick) s))).
Proof.
  intros H0. split.
  - intros m Hm. destruct m as [|m]; [done|].
    by rewrite flow_ticks by (done || unfold Locoflow.n; lia).
  - rewrite (replicate_S_end 145), flow_run_snoc.
    rewrite (flow_ticks xvals yvals 145) by (done || unfold Locoflow.n; lia).
    cbn [Locoflow.deliver].
    rewrite flow_animate_after_last.
    unfold flow_rewound, flow_frame. flow_fields.
    split; [done|]. split; [done|].
    split; [by rewrite !length_fmap|]. split; [by rewrite !length_fmap|].
    split; apply Forall_fmap, Forall_forall; intros d _.
    + apply cleared_insert_zeros.
    + apply single_point_insert.
Qed.

Lemma flow_timeline_cycle_witness :
  Locoflow.index flow_start = 0%Z ∧
  Locoflow.index
    (Locoflow.run flow_xvals flow_yvals (replicate 146 Tick) flow_start) = 0%Z.
Proof.
  split; [reflexivity|].
  apply (flow_timeline_cycle flow_xvals flow_yvals flow_start). reflexivity.
Defined.

(** ** The cumulative path draw *)

Section Paths.
Context {A : Type}.
Implicit Types (vals : list (list A)) (k : Z).

Lemma py_slice_to_length k (N : nat) (l : list A) :
  length l = N → (0 ≤ k ≤ Z.of_nat N)%Z → length (py_slice_to k l) = Z.to_nat k.
Proof.
  intros Hl Hk. rewrite py_slice_to_nonneg by lia. rewrite length_take. lia.
Qed.

Lemma py_slice_to_all k (l : list A) :
  (Z.of_nat (length l) ≤ k)%Z → py_slice_to k l = l.
Proof.
  intros Hk. rewrite py_slice_to_nonneg by lia. apply take_ge. lia.
Qed.

Lemma slices_length k (N : nat) vals :
  Forall (λ l, length l = N) vals → (0 ≤ k ≤ Z.of_nat N)%Z →
  Forall (λ p, length p = Z.to_nat k) (py_slice_to k <$> vals).
Proof.
  intros Hv Hk. apply Forall_fmap. eapply Forall_impl; [exact Hv|].
  intros l Hl. by apply (py_slice_to_length k N).
Qed.

Lemma slices_all (N : nat) vals :
  Forall (λ l, length l = N) vals → py_slice_to (Z.of_nat N) <$> vals = vals.
Proof.
  intros Hv. induction Hv as [|l vals Hl Hv IH]; [done|].
  cbn [fmap list_fmap]. f_equal; [|exact IH]. apply py_slice_to_all. lia.
Qed.

Lemma slices_prefix k vals :
  (0 ≤ k)%Z →
  Forall2 prefix (py_slice_to k <$> vals) (py_slice_to (k + 1) <$> vals).
Proof.
  intros Hk. apply Forall2_fmap, Forall2_same_length_lookup.
  split; [done|]. intros i l1 l2 H1 H2. simplify_eq. by apply py_slice_to_prefix.
Qed.

End Paths.

(** C6. With [N] samples in every series, [redraw_lines(k)] for
    [0 ≤ k ≤ N] leaves in each line trace a path of exactly [k] samples,
    which is a prefix of the path [redraw_lines(k + 1)] leaves; the path
    is empty at [k = 0] and the whole series at [k = N]. *)
Theorem cumulative_path (xvals : list (list Z)) (yvals : list (list Q))
    (N : nat) (k : Z) (s : Locoflow.state) :
  Forall (λ x, length x = N) xvals →
  Forall (λ y, length y = N) yvals →
  (0 ≤ k ≤ Z.of_nat N)%Z →
  ∃ s', Locoflow.redraw_lines xvals yvals k s = Returned s' ∧
    length (visible_xs (Locoflow.lines (Locoflow.ds s'))) = length xvals ∧
    length (visible_ys (Locoflow.lines (Locoflow.ds s'))) = length yvals ∧
    Forall (λ p, length p = Z.to_nat k) (visible_xs (Locoflow.lines (Locoflow.ds s'))) ∧
    Forall (λ p, length p = Z.to_nat k) (visible_ys (Locoflow.lines (Locoflow.ds s'))) ∧
    (∀ s1 s'', Locoflow.redraw_lines xvals yvals (k + 1) s1 = Returned s'' →
       Forall2 prefix (visible_xs (Locoflow.lines (Locoflow.ds s')))
                      (visible_xs (Locoflow.lines (Locoflow.ds s''))) ∧
       Forall2 prefix (visible_ys (Locoflow.lines (Locoflow.ds s')))
                      (visible_ys (Locoflow.lines (Locoflow.ds s'')))) ∧
    (k = 0%Z →
       Forall (λ p, p = []) (visible_xs (Locoflow.lines (Locoflow.ds s'))) ∧
       Forall (λ p, p = []) (visible_ys (Locoflow.lines (Locoflow.ds s')))) ∧
    (k = Z.of_nat N →
       visible_xs (Locoflow.lines (Locoflow.ds s')) = xvals ∧
       visible_ys (Locoflow.lines (Locoflow.ds s')) = yvals).
Proof.
  intros Hx Hy Hk. eexists. split; [reflexivity|].
  unfold visible_xs, visible_ys. flow_fields.
  rewrite lookup_insert_eq, lookup_insert_ne, lookup_insert_eq by done.
  split; [by rewrite length_fmap|]. split; [by rewrite length_fmap|].
  split; [by apply (slices_length k N)|]. split; [by apply (slices_length k N)|].
  split; [|split].
  - intros s1 s'' [= <-]. flow_fields.
    rewrite lookup_insert_eq, lookup_insert_ne, lookup_insert_eq by done.
    split; apply slices_prefix; lia.
  - intros ->. split; apply Forall_fmap, Forall_forall; intros l _; apply take_0.
  - intros ->. split; by apply slices_all.
Qed.

Lemma cumulative_path_witness :
  ∃ s', Locoflow.redraw_lines flow_xvals flow_yvals 36 flow_start = Returned s' ∧
    Forall (λ p, length p = 36%nat) (visible_xs (Locoflow.lines (Locoflow.ds s'))) ∧
    Forall (λ p, length p = 36%nat) (visible_ys (Locoflow.lines (Locoflow.ds s'))).
Proof.
  destruct (cumulative_path flow_xvals flow_yvals 145 36 flow_start)
    as (s' & Hs' & _ & _ & Hxs & Hys & _).
  - unfold flow_xvals. apply Forall_replicate. by rewrite length_fmap, length_seq.
  - unfold flow_yvals. apply Forall_replicate. by rewrite length_replicate.
  - lia.
  - exists s'. split; [exact Hs'|]. split; [exact Hxs | exact Hys].
Defined.

(** ** Play and pause *)

Section Playback.
Implicit Types (cb : callback) (doc : list (callback * Q)).

Lemma add_periodic_callback_fires cb period doc :
  fires cb (add_periodic_callback cb period doc).
Proof.
  exists period. unfold add_periodic_callback. apply elem_of_app. right.
  by apply list_elem_of_singleton.
Qed.

Lemma fires_elem_of cb doc : fires cb doc ↔ cb ∈ doc.*1.
Proof.
  split.
  - intros [period H]. apply list_elem_of_fmap. by exists (cb, period).
  - intros H. apply list_elem_of_fmap in H as ([cb' period] & Heq & Hin).
    simpl in Heq. subst cb'. by exists period.
Qed.

Lemma filter_all {B : Type} (P : B → Prop) `{∀ x, Decision (P x)} (l : list B) :
  (∀ x, x ∈ l → P x) → filter P l = l.
Proof.
  induction l as [|x l IH]; intros Hl; [done|].
  rewrite filter_cons_True by (apply Hl; left).
  f_equal. apply IH. intros y Hy. apply Hl. by right.
Qed.

Lemma remove_add_periodic_callback cb period doc :
  ¬ fires cb doc →
  remove_periodic_callback cb (add_periodic_callback cb period doc) = inr doc.
Proof.
  intros Hn. unfold remove_periodic_callback.
  rewrite decide_True
    by (apply fires_elem_of; apply add_periodic_callback_fires).
  f_equal. unfold add_periodic_callback.
  rewrite filter_app. rewrite filter_all.
  - rewrite filter_cons_False; [apply app_nil_r | intros H; by apply H].
  - intros [cb' q] Hin Heq. simpl in Heq. subst cb'. apply Hn. by exists q.
Qed.

Lemma dams_update_play fps (s : Locodams.state) :
  Locodams.button_label s = "Play" → fps ≠ 0%Z →
  Locodams.update fps s
  = Returned (Locodams.set_periodic
      (add_periodic_callback Animate (1000 / inject_Z fps)%Q (Locodams.periodic s))
      (Locodams.set_button_label "Pause" s)).
Proof.
  intros Hl Hf. unfold Locodams.update. rewrite decide_True by done.
  cbv zeta. by rewrite decide_False by done.
Qed.

Lemma dams_update_pause fps (s : Locodams.state) doc :
  Locodams.button_label s ≠ "Play" →
  remove_periodic_callback Animate (Locodams.periodic s) = inr doc →
  Locodams.update fps s
  = Returned (Locodams.set_periodic doc (Locodams.set_button_label "Play" s)).
Proof.
  intros Hl Hr. unfold Locodams.update. rewrite decide_False by done.
  dams_fields. by rewrite Hr.
Qed.

Lemma flow_update_play fps (s : Locoflow.state) :
  Locoflow.button_label s = "Play" → fps ≠ 0%Z →
  Locoflow.update fps s
  = Returned (Locoflow.set_periodic
      (add_periodic_callback Animate (1000 / inject_Z fps)%Q (Locoflow.periodic s))
      (Locoflow.set_button_label "Pause" s)).
Proof.
  intros Hl Hf. unfold Locoflow.update. rewrite decide_True by done.
  cbv zeta. by rewrite decide_False by done.
Qed.

Lemma flow_update_pause fps (s : Locoflow.state) doc :
  Locoflow.button_label s ≠ "Play" →
  remove_periodic_callback Animate (Locoflow.periodic s) = inr doc →
  Locoflow.update fps s
  = Returned (Locoflow.set_periodic doc (Locoflow.set_button_label "Play" s)).
Proof.
  intros Hl Hr. unfold Locoflow.update. rewrite decide_False by done.
  flow_fields. by rewrite Hr.
Qed.

End Playback.

(** C8. In both dashboards, from the stopped state (label "Play", no
    timer for [animate]) a first click starts playback: the label is
    "Pause" and [animate] is registered. A second click returns exactly
    the state before the first: the label is "Play" again and no timer is
    left that could call [animate]. *)
Theorem toggle_twice :
  (∀ s : Locodams.state,
     Locodams.button_label s = "Play" →
     ¬ fires Animate (Locodams.periodic s) →
     ∃ s1 s2,
       Locodams.update Locodams.fps s = Returned s1 ∧
       Locodams.button_label s1 = "Pause" ∧
       fires Animate (Locodams.periodic s1) ∧
       Locodams.update Locodams.fps s1 = Returned s2 ∧
       s2 = s ∧
       Locodams.button_label s2 = "Play" ∧
       ¬ fires Animate (Locodams.periodic s2))
  ∧
  (∀ s : Locoflow.state,
     Locoflow.button_label s = "Play" →
     ¬ fires Animate (Locoflow.periodic s) →
     ∃ s1 s2,
       Locoflow.update Locoflow.fps s = Returned s1 ∧
       Locoflow.button_label s1 = "Pause" ∧
       fires Animate (Locoflow.periodic s1) ∧
       Locoflow.update Locoflow.fps s1 = Returned s2 ∧
       s2 = s ∧
       Locoflow.button_label s2 = "Play" ∧
       ¬ fires Animate (Locoflow.periodic s2)).
Proof.
  split.
  - intros s Hl Hn. do 2 eexists.
    split; [by apply dams_update_play|]. split; [done|].
    split; [apply add_periodic_callback_fires|].
    split.
    { apply dams_update_pause; [done|]. dams_fields.
      by apply remove_add_periodic_callback. }
    dams_fields.
    destruct s as [ds0 i v l doc]. simpl in Hl. subst l. done.
  - intros s Hl Hn. do 2 eexists.
    split; [by apply flow_update_play|]. split; [done|].
    split; [apply add_periodic_callback_fires|].
    split.
    { apply flow_update_pause; [done|]. flow_fields.
      by apply remove_add_periodic_callback. }
    flow_fields.
    destruct s as [ds0 i v l doc]. simpl in Hl. subst l. done.
Qed.

Lemma toggle_twice_witness :
  (∃ s1 s2,
     Locodams.update Locodams.fps dams_start = Returned s1 ∧
     Locodams.button_label s1 = "Pause" ∧
     fires Animate (Locodams.periodic s1) ∧
     Locodams.update Locodams.fps s1 = Returned s2 ∧
     s2 = dams_start ∧
     Locodams.button_label s2 = "Play" ∧
     ¬ fires Animate (Locodams.periodic s2))
  ∧
  (∃ s1 s2,
     Locoflow.update Locoflow.fps flow_start = Returned s1 ∧
     Locoflow.button_label s1 = "Pause" ∧
     fires Animate (Locoflow.periodic s1) ∧
     Locoflow.update Locoflow.fps s1 = Returned s2 ∧
     s2 = flow_start ∧
     Locoflow.button_label s2 = "Play" ∧
     ¬ fires Animate (Locoflow.periodic s2)).
Proof.
  split.
  - apply (proj1 toggle_twice dams_start); [reflexivity|].
    intros [period H]. simpl in H. by apply elem_of_nil in H.
  - apply (proj2 toggle_twice flow_start); [reflexivity|].
    intros [period H]. simpl in H. by apply elem_of_nil in H.
Defined.

(** ** What a redraw leaves alone *)

Section Frame.
Implicit Types (d : data) (keys : list string).

Lemma same_except_refl keys d : same_except keys d d.
Proof. by intros key _. Qed.

Lemma same_except_insert key v d : same_except [key] d (<[key := v]> d).
Proof.
  intros key' Hk. apply lookup_insert_ne. intros ->. apply Hk. by left.
Qed.

Lemma for_enumerate_same_except keys body j (ds : list data) :
  (∀ i d d', body i d = inr d' → same_except keys d d') →
  Forall2 (same_except keys) ds (state_of (for_enumerate body j ds)).
Proof.
  intros Hb. revert j. induction ds as [|d rest IH]; intros j; simpl.
  - constructor.
  - destruct (body j d) as [e|d'] eqn:E; simpl.
    + constructor; [apply same_except_refl|].
      apply Forall2_same_length_lookup. split; [done|].
      intros i x y Hx Hy. simplify_eq. apply same_except_refl.
    + specialize (IH (S j)).
      destruct (for_enumerate body (S j) rest); simpl in *;
        (constructor; [by eapply Hb | exact IH]).
Qed.

Lemma redraw2_body_same_except (nd : list nat) k lo hi j d d' :
  Locodams.redraw2_body nd k lo hi j d = inr d' →
  same_except ["fill_alpha"] d d'.
Proof.
  unfold Locodams.redraw2_body. destruct (nd !! j); [|done]. simpl.
  destruct (py_setitem _ _ _); [done|]. intros [= <-]. apply same_except_insert.
Qed.

Lemma redraw_tapes_body_same_except k lo hi j d d' :
  Locoflow.redraw_tapes_body k lo hi j d = inr d' →
  same_except ["fill_alpha"] d d'.
Proof.
  unfold Locoflow.redraw_tapes_body. simpl.
  destruct (py_setitem _ _ _); [done|]. intros [= <-]. apply same_except_insert.
Qed.

Lemma redraw_points_body_same_except k j d d' :
  Locoflow.redraw_points_body k j d = inr d' →
  same_except ["fill_alpha"] d d'.
Proof.
  unfold Locoflow.redraw_points_body. intros [= <-]. apply same_except_insert.
Qed.

End Frame.

(** C9. For any frame [k], and whether it returns or raises, each redraw
    changes nothing but the visual parameters: [redraw2],
    [redraw_points] and [redraw_tapes] keep every column other than
    [fill_alpha] of every source they loop over, [redraw_lines] keeps
    every column other than [xs] and [ys]; the number of sources, the
    sources of the other elements, the cursor, the slider, the button and
    the timers are unchanged. *)
Theorem redraw_frame :
  (∀ (nd : list nat) (k : Z) (lo hi : Q) (s : Locodams.state),
     let s' := state_of (Locodams.redraw2 nd k lo hi s) in
     Forall2 (same_except ["fill_alpha"]) (Locodams.ds s) (Locodams.ds s') ∧
     s' = Locodams.set_ds (Locodams.ds s') s)
  ∧
  (∀ (k : Z) (s : Locoflow.state),
     let s' := state_of (Locoflow.redraw_points k s) in
     Forall2 (same_except ["fill_alpha"])
       (Locoflow.points (Locoflow.ds s)) (Locoflow.points (Locoflow.ds s')) ∧
     s' = Locoflow.set_points (Locoflow.points (Locoflow.ds s')) s)
  ∧
  (∀ (k : Z) (lo hi : Q) (s : Locoflow.state),
     let s' := state_of (Locoflow.redraw_tapes k lo hi s) in
     Forall2 (same_except ["fill_alpha"])
       (Locoflow.tapes (Locoflow.ds s)) (Locoflow.tapes (Locoflow.ds s')) ∧
     s' = Locoflow.set_tapes (Locoflow.tapes (Locoflow.ds s')) s)
  ∧
  (∀ (xvals : list (list Z)) (yvals : list (list Q)) (k : Z) (s : Locoflow.state),
     let s' := state_of (Locoflow.redraw_lines xvals yvals k s) in
     same_except ["xs"; "ys"]
       (Locoflow.lines (Locoflow.ds s)) (Locoflow.lines (Locoflow.ds s')) ∧
     s' = Locoflow.set_lines (Locoflow.lines (Locoflow.ds s')) s).
Proof.
  split; [|split; [|split]].
  - intros nd k lo hi s s'. subst s'. unfold Locodams.redraw2.
    pose proof (for_enumerate_same_except ["fill_alpha"]
                  (Locodams.redraw2_body nd k lo hi) 0 (Locodams.ds s)) as H.
    destruct (for_enumerate _ _ _); dams_fields;
      (split; [apply H; intros i d d'; apply redraw2_body_same_except | done]).
  - intros k s s'. subst s'. unfold Locoflow.redraw_points.
    pose proof (for_enumerate_same_except ["fill_alpha"]
                  (Locoflow.redraw_points_body k) 0
                  (Locoflow.points (Locoflow.ds s))) as H.
    destruct (for_enumerate _ _ _); flow_fields;
      (split; [apply H; intros i d d'; apply redraw_points_body_same_except | done]).
  - intros k lo hi s s'. subst s'. unfold Locoflow.redraw_tapes.
    pose proof (for_enumerate_same_except ["fill_alpha"]
                  (Locoflow.redraw_tapes_body k lo hi) 0
                  (Locoflow.tapes (Locoflow.ds s))) as H.
    destruct (for_enumerate _ _ _); flow_fields;
      (split; [apply H; intros i d d'; apply redraw_tapes_body_same_except | done]).
  - intros xvals yvals k s s'. subst s'. unfold Locoflow.redraw_lines.
    flow_fields. split; [|done].
    intros key Hk. rewrite !lookup_insert_ne; [done | |].
    + intros <-. apply Hk. by left.
    + intros <-. apply Hk. right. by left.
Qed.

(** ** Lengths of the opacity arrays *)

Section Lengths.

Lemma redraw2_body_length (nd : list nat) k lo hi j (d d' : data) :
  Locodams.redraw2_body nd k lo hi j d = inr d' →
  ∃ nj alpha, nd !! j = Some nj ∧ fill_alpha d' = Some alpha ∧ length alpha = nj.
Proof.
  unfold Locodams.redraw2_body. destruct (nd !! j) as [nj|]; [|done]. simpl.
  destruct (py_setitem _ _ _) as [e|alpha] eqn:E; [done|]. intros [= <-].
  exists nj, alpha. split; [done|]. split; [apply fill_alpha_insert|].
  apply py_setitem_length in E. by rewrite length_comprehension in E.
Qed.

Lemma redraw_tapes_body_length k lo hi j (d d' : data) :
  Locoflow.redraw_tapes_body k lo hi j d = inr d' →
  ∃ alpha, fill_alpha d' = Some alpha ∧ length alpha = Locoflow.n.
Proof.
  unfold Locoflow.redraw_tapes_body. simpl.
  destruct (py_setitem _ _ _) as [e|alpha] eqn:E; [done|]. intros [= <-].
  exists alpha. split; [apply fill_alpha_insert|].
  apply py_setitem_length in E. by rewrite length_comprehension in E.
Qed.

End Lengths.

(** C10. The opacity array a comet-trail redraw writes has the length of
    the element's series, for any frame [k]: when [redraw2] returns,
    the array of the [j]-th source has length [n[j]], and when
    [redraw_tapes] returns every array has length [n = 145]; when they
    raise, each source is as it was before the call or holds an array of
    that length. *)
Theorem opacity_length_invariant :
  (∀ (nd : list nat) (k : Z) (lo hi : Q) (s s' : Locodams.state) (j : nat) (d' : data),
     Locodams.redraw2 nd k lo hi s = Returned s' →
     Locodams.ds s' !! j = Some d' →
     ∃ nj alpha, nd !! j = Some nj ∧ fill_alpha d' = Some alpha ∧ length alpha = nj)
  ∧
  (∀ (nd : list nat) (k : Z) (lo hi : Q) (s : Locodams.state) (j : nat) (d' : data),
     Locodams.ds (state_of (Locodams.redraw2 nd k lo hi s)) !! j = Some d' →
     Locodams.ds s !! j = Some d' ∨
     ∃ nj alpha, nd !! j = Some nj ∧ fill_alpha d' = Some alpha ∧ length alpha = nj)
  ∧
  (∀ (k : Z) (lo hi : Q) (s s' : Locoflow.state) (j : nat) (d' : data),
     Locoflow.redraw_tapes k lo hi s = Returned s' →
     Locoflow.tapes (Locoflow.ds s') !! j = Some d' →
     ∃ alpha, fill_alpha d' = Some alpha ∧ length alpha = 145%nat)
  ∧
  (∀ (k : Z) (lo hi : Q) (s : Locoflow.state) (j : nat) (d' : data),
     Locoflow.tapes (Locoflow.ds (state_of (Locoflow.redraw_tapes k lo hi s))) !! j
       = Some d' →
     Locoflow.tapes (Locoflow.ds s) !! j = Some d' ∨
     ∃ alpha, fill_alpha d' = Some alpha ∧ length alpha = 145%nat).
Proof.
  split; [|split; [|split]].
  - intros nd k lo hi s s' j d'. unfold Locodams.redraw2.
    destruct (for_enumerate _ _ _) as [ds'|e ds'] eqn:E; [|done].
    intros [= <-]. dams_fields. intros Hd.
    destruct (for_enumerate_returned _ _ _ _ _ _ E Hd) as (d & _ & Hb).
    by apply redraw2_body_length in Hb.
  - intros nd k lo hi s j d'. unfold Locodams.redraw2.
    pose proof (for_enumerate_lookup (Locodams.redraw2_body nd k lo hi) 0
                  (Locodams.ds s) j d') as H.
    destruct (for_enumerate _ _ _) as [ds'|e ds']; dams_fields; intros Hd;
      (destruct (H Hd) as (d & Hs & [->|Hb]);
       [by left | right; by apply redraw2_body_length in Hb]).
  - intros k lo hi s s' j d'. unfold Locoflow.redraw_tapes.
    destruct (for_enumerate _ _ _) as [ds'|e ds'] eqn:E; [|done].
    intros [= <-]. flow_fields. intros Hd.
    destruct (for_enumerate_returned _ _ _ _ _ _ E Hd) as (d & _ & Hb).
    by apply redraw_tapes_body_length in Hb.
  - intros k lo hi s j d'. unfold Locoflow.redraw_tapes.
    pose proof (for_enumerate_lookup (Locoflow.redraw_tapes_body k lo hi) 0
                  (Locoflow.tapes (Locoflow.ds s)) j d') as H.
    destruct (for_enumerate _ _ _) as [ds'|e ds']; flow_fields; intros Hd;
      (destruct (H Hd) as (d & Hs & [->|Hb]);
       [by left | right; by apply redraw_tapes_body_length in Hb]).
Qed.

Lemma opacity_length_invariant_witness :
  (∃ nj alpha, dams_n !! 0%nat = Some nj ∧
     fill_alpha
       (<["fill_alpha" := Floats (trail Locodams.lo Locodams.hi 72 36)]>
          (sample_source 72)) = Some alpha ∧
     length alpha = nj)
  ∧
  (∃ alpha,
     fill_alpha
       (<["fill_alpha" := Floats (trail Locoflow.lo Locoflow.hi Locoflow.n 145)]>
          (sample_source 145)) = Some alpha ∧
     length alpha = 145%nat).
Proof.
  destruct opacity_length_invariant as (Hd & _ & Hf & _).
  split.
  - apply (Hd dams_n 36%Z Locodams.lo Locodams.hi dams_start
             (Locodams.set_ds
                ((λ d, <["fill_alpha" :=
                           Floats (trail Locodams.lo Locodams.hi 72 36)]> d)
                   <$> Locodams.ds dams_start) dams_start)
             0%nat).
    + rewrite (redraw2_in_range dams_n 72);
        [reflexivity | lia | simpl; lia | repeat constructor].
    + reflexivity.
  - apply (Hf 145%Z Locoflow.lo Locoflow.hi flow_start
             (Locoflow.set_tapes
                ((λ d, <["fill_alpha" :=
                           Floats (trail Locoflow.lo Locoflow.hi Locoflow.n 145)]> d)
                   <$> Locoflow.tapes (Locoflow.ds flow_start)) flow_start)
             0%nat).
    + apply redraw_tapes_in_range. unfold Locoflow.n. lia.
    + reflexivity.
Defined.

(** * Further properties of the callbacks *)

(** ** Frames at and below 0, frames at the end *)

(** X1. At frame 0, and at every negative frame down to -144,
    [redraw_tapes] returns and leaves every tape with an opacity array of
    145 zeros: the guard [hi if k > 0 else 0] keeps index [k - 1], which
    counts from the end, from being highlighted. *)
Theorem redraw_tapes_nonpositive_clears (k : Z) (lo hi : Q) (s : Locoflow.state) :
  (-144 ≤ k ≤ 0)%Z →
  ∃ s', Locoflow.redraw_tapes k lo hi s = Returned s' ∧
    length (Locoflow.tapes (Locoflow.ds s'))
      = length (Locoflow.tapes (Locoflow.ds s)) ∧
    Forall (λ d, fill_alpha d = Some (replicate 145 0%Q))
      (Locoflow.tapes (Locoflow.ds s')) ∧
    Forall cleared (Locoflow.tapes (Locoflow.ds s')).
Proof.
  intros Hk. eexists. split.
  { unfold Locoflow.redraw_tapes.
    rewrite (for_enumerate_fmap _ _ _
               (λ d, <["fill_alpha" := Floats (replicate Locoflow.n 0%Q)]> d));
      [reflexivity|].
    intros i d Hi. unfold Locoflow.redraw_tapes_body.
    rewrite (decide_False (P := (k > 0)%Z)) by lia.
    by rewrite setitem_nonpositive_frame by (unfold Locoflow.n; lia). }
  flow_fields. split; [by rewrite length_fmap|]. split.
  - apply Forall_fmap, Forall_forall. intros d _. apply fill_alpha_insert.
  - apply Forall_fmap, Forall_forall. intros d _. apply cleared_insert_zeros.
Qed.

Lemma redraw_tapes_nonpositive_clears_witness :
  ∃ s', Locoflow.redraw_tapes 0 Locoflow.lo Locoflow.hi flow_start = Returned s' ∧
    Forall cleared (Locoflow.tapes (Locoflow.ds s')).
Proof.
  destruct (redraw_tapes_nonpositive_clears 0 Locoflow.lo Locoflow.hi flow_start)
    as (s' & Hs' & _ & _ & Hc); [lia|].
  exists s'. split; [exact Hs' | exact Hc].
Defined.

(** X2. In the dams dashboard, over tables of [N] rows each, a call of
    [animate] with the cursor at or beyond [N] returns with cursor and
    slider at 0 and all other columns, the button and the timers as they
    were. When the slider was at 0 already, every opacity array is [N]
    zeros. When it was not, setting it to 0 calls [slider_update], whose
    [redraw2(0)] leaves [N - 1] zeros followed by the high opacity
    ([N ≥ 1]). *)
Theorem dams_animate_rewinds (nd : list nat) (N : nat) (s : Locodams.state) :
  Forall (λ nj, nj = N) nd →
  (0 < length nd)%nat →
  (length (Locodams.ds s) ≤ length nd)%nat →
  (Z.of_nat N ≤ Locodams.index s)%Z →
  (Locodams.slider_value s = 0%Z →
   ∃ s', Locodams.animate nd s = Returned s' ∧
     Locodams.index s' = 0%Z ∧
     Locodams.slider_value s' = 0%Z ∧
     Locodams.button_label s' = Locodams.button_label s ∧
     Locodams.periodic s' = Locodams.periodic s ∧
     Forall2 (λ d d', fill_alpha d' = Some (replicate N 0%Q) ∧
                      same_except ["fill_alpha"] d d')
       (Locodams.ds s) (Locodams.ds s'))
  ∧
  (Locodams.slider_value s ≠ 0%Z → (1 ≤ N)%nat →
   ∃ s', Locodams.animate nd s = Returned s' ∧
     Locodams.index s' = 0%Z ∧
     Locodams.slider_value s' = 0%Z ∧
     Locodams.button_label s' = Locodams.button_label s ∧
     Locodams.periodic s' = Locodams.periodic s ∧
     Forall2 (λ d d', fill_alpha d' = Some (replicate (N - 1) 0%Q ++ [Locodams.hi]) ∧
                      same_except ["fill_alpha"] d d')
       (Locodams.ds s) (Locodams.ds s')).
Proof.
  intros Hall Hnd Hlen Hi. split.
  - intros Hv. eexists.
    split; [apply (dams_animate_end nd N); done || lia|].
    unfold dams_rewound. dams_fields. repeat (split; [done|]).
    apply Forall2_fmap_r, Forall2_same_length_lookup. split; [done|].
    intros i d d' Hd Hd'. simplify_eq.
    split; [apply fill_alpha_insert | apply same_except_insert].
  - intros Hv HN. eexists.
    split; [apply (dams_animate_end_wrapped nd N); done || lia|].
    unfold dams_wrapped. dams_fields. repeat (split; [done|]).
    apply Forall2_fmap_r, Forall2_same_length_lookup. split; [done|].
    intros i d d' Hd Hd'. simplify_eq.
    split; [apply fill_alpha_insert | apply same_except_insert].
Qed.

Lemma dams_animate_rewinds_witness :
  (∃ s', Locodams.animate dams_n (Locodams.set_index 72 dams_start) = Returned s' ∧
     Locodams.index s' = 0%Z)
  ∧
  (∃ s', Locodams.animate dams_n
           (Locodams.set_slider_value 72 (Locodams.set_index 72 dams_start))
         = Returned s' ∧
     Locodams.index s' = 0%Z).
Proof.
  split.
  - destruct (dams_animate_rewinds dams_n 72 (Locodams.set_index 72 dams_start))
      as [H _].
    + unfold dams_n. repeat constructor.
    + simpl. lia.
    + simpl. lia.
    + simpl. lia.
    + destruct H as (s' & Hs' & Hi & _); [reflexivity|].
      exists s'. split; [exact Hs' | exact Hi].
  - destruct (dams_animate_rewinds dams_n 72
                (Locodams.set_slider_value 72 (Locodams.set_index 72 dams_start)))
      as [_ H].
    + unfold dams_n. repeat constructor.
    + simpl. lia.
    + simpl. lia.
    + simpl. lia.
    + destruct H as (s' & Hs' & Hi & _); [discriminate | lia |].
      exists s'. split; [exact Hs' | exact Hi].
Defined.

(** ** Playing through the timeline *)

(** X3. In the dams dashboard, over tables of [N] rows each, [m] timer
    ticks from [index = 0], [1 ≤ m ≤ N], return one after the other and
    leave the dashboard showing frame [m]: cursor and slider at [m], in
    every opacity array the trail of frame [m], all other columns, the
    button and the timers as at the start. Nothing of the frames in
    between is left. *)
Theorem dams_ticks_show_frame (nd : list nat) (N m : nat) (s : Locodams.state) :
  Forall (λ nj, nj = N) nd →
  (0 < length nd)%nat →
  (length (Locodams.ds s) ≤ length nd)%nat →
  Locodams.index s = 0%Z →
  (1 ≤ m ≤ N)%nat →
  Locodams.run nd (replicate m Tick) s = dams_frame N (Z.of_nat m) s ∧
  Forall (comet_trail Locodams.lo Locodams.hi N (Z.of_nat m))
    (Locodams.ds (Locodams.run nd (replicate m Tick) s)).
Proof.
  intros Hall Hnd Hlen H0 Hm.
  rewrite (dams_ticks nd N) by done. split; [done|].
  unfold dams_frame. dams_fields.
  destruct dams_opacities_distinct as (? & ? & ?).
  apply Forall_fmap, Forall_forall. intros d _.
  apply comet_trail_insert; [lia | done..].
Qed.

Lemma dams_ticks_show_frame_witness :
  Locodams.run dams_n (replicate 72 Tick) dams_start = dams_frame 72 72 dams_start.
Proof.
  apply (dams_ticks_show_frame dams_n 72 72 dams_start).
  - unfold dams_n. repeat constructor.
  - simpl. lia.
  - simpl. lia.
  - reflexivity.
  - lia.
Defined.

(** X4. In the flow dashboard, [m] timer ticks from [index = 0],
    [1 ≤ m ≤ 145], leave the dashboard showing frame [m]: cursor and
    slider at [m], the markers with the dot of frame [m], the tapes with
    the trail of frame [m], the line traces cut to [m] samples, and
    everything else as at the start. *)
Theorem flow_ticks_show_frame (xvals : list (list Z)) (yvals : list (list Q))
    (m : nat) (s : Locoflow.state) :
  Locoflow.index s = 0%Z →
  (1 ≤ m ≤ 145)%nat →
  Locoflow.run xvals yvals (replicate m Tick) s
  = flow_frame xvals yvals (Z.of_nat m) s.
Proof. intros H0 Hm. by apply flow_ticks. Qed.

Lemma flow_ticks_show_frame_witness :
  Locoflow.run flow_xvals flow_yvals (replicate 145 Tick) flow_start
  = flow_frame flow_xvals flow_yvals 145 flow_start.
Proof.
  apply (flow_ticks_show_frame flow_xvals flow_yvals 145 flow_start);
    [reflexivity | lia].
Defined.

(** X5. In the dams dashboard, over tables of [N ≥ 1] rows each, [N + 1]
    timer ticks from [index = 0] bring cursor and slider back to 0. The
    last tick clears the arrays and then, by setting the slider from [N]
    to 0, has [redraw2(0)] run: every opacity array ends as [N - 1] zeros
    followed by the high opacity, not as all zeros. *)
Theorem dams_timeline_cycle (nd : list nat) (N : nat) (s : Locodams.state) :
  Forall (λ nj, nj = N) nd →
  (0 < length nd)%nat →
  (length (Locodams.ds s) ≤ length nd)%nat →
  Locodams.index s = 0%Z →
  (1 ≤ N)%nat →
  Locodams.run nd (replicate (S N) Tick) s = dams_wrapped N s ∧
  Locodams.index (Locodams.run nd (replicate (S N) Tick) s) = 0%Z ∧
  Locodams.slider_value (Locodams.run nd (replicate (S N) Tick) s) = 0%Z ∧
  Forall (λ d, fill_alpha d = Some (replicate (N - 1) 0%Q ++ [Locodams.hi]))
    (Locodams.ds (Locodams.run nd (replicate (S N) Tick) s)).
Proof.
  intros Hall Hnd Hlen H0 HN.
  assert (Locodams.run nd (replicate (S N) Tick) s = dams_wrapped N s) as ->.
  { rewrite replicate_S_end, dams_run_snoc, (dams_ticks nd N) by (done || lia).
    cbn [Locodams.deliver].
    rewrite (dams_animate_end_wrapped nd N);
      [| done | done | done
       | unfold dams_frame; dams_fields; by rewrite length_fmap
       | unfold dams_frame; dams_fields; lia
       | unfold dams_frame; dams_fields; lia].
    unfold dams_wrapped, dams_frame. dams_fields. f_equal.
    rewrite <- list_fmap_compose. apply list_fmap_ext. intros i d _.
    apply insert_insert_eq. }
  split; [done|]. split; [done|]. split; [done|].
  unfold dams_wrapped. dams_fields.
  apply Forall_fmap, Forall_forall. intros d _. apply fill_alpha_insert.
Qed.

Lemma dams_timeline_cycle_witness :
  Locodams.index (Locodams.run dams_n (replicate 73 Tick) dams_start) = 0%Z.
Proof.
  apply (dams_timeline_cycle dams_n 72 dams_start).
  - unfold dams_n. repeat constructor.
  - simpl. lia.
  - simpl. lia.
  - reflexivity.
  - lia.
Defined.

(** ** Scrubbing *)

(** X6. [slider_update] with the slider at a frame [k] in [1, N] shows
    frame [k] in either dashboard, whatever was shown before: it returns,
    the cursor reads back [k], every element holds the redraw for [k],
    and the button and the timers are untouched. [N] is the common row
    count of the tables in the dams dashboard and [n = 145] in the flow
    dashboard. *)
Theorem scrub_shows_frame :
  (∀ (nd : list nat) (N : nat) (attrname : string) (old new : Z)
     (s : Locodams.state),
     Forall (λ nj, nj = N) nd →
     (length (Locodams.ds s) ≤ length nd)%nat →
     (1 ≤ Locodams.slider_value s ≤ Z.of_nat N)%Z →
     Locodams.slider_update nd attrname old new s
     = Returned (dams_frame N (Locodams.slider_value s) s))
  ∧
  (∀ (xvals : list (list Z)) (yvals : list (list Q)) (attrname : string)
     (old new : Z) (s : Locoflow.state),
     (1 ≤ Locoflow.slider_value s ≤ 145)%Z →
     Locoflow.slider_update xvals yvals attrname old new s
     = Returned (flow_frame xvals yvals (Locoflow.slider_value s) s)).
Proof.
  split.
  - intros nd N attrname old new s Hall Hlen Hk.
    by apply (dams_slider_update_frame nd N).
  - intros xvals yvals attrname old new s Hk.
    by apply flow_slider_update_frame.
Qed.

Lemma scrub_shows_frame_witness :
  Locodams.slider_update dams_n "value" 0 36 (Locodams.set_slider_value 36 dams_start)
  = Returned (dams_frame 72 36 (Locodams.set_slider_value 36 dams_start))
  ∧
  Locoflow.slider_update flow_xvals flow_yvals "value" 0 36
    (Locoflow.set_slider_value 36 flow_start)
  = Returned (flow_frame flow_xvals flow_yvals 36
                (Locoflow.set_slider_value 36 flow_start)).
Proof.
  split.
  - apply (proj1 scrub_shows_frame dams_n 72%nat "value" 0%Z 36%Z
             (Locodams.set_slider_value 36 dams_start)).
    + unfold dams_n. repeat constructor.
    + simpl. lia.
    + simpl. lia.
  - apply (proj2 scrub_shows_frame flow_xvals flow_yvals "value" 0%Z 36%Z
             (Locoflow.set_slider_value 36 flow_start)).
    simpl. lia.
Defined.

(** X7. Before the end of the timeline [animate] does what
    [slider_update] does once the slider has been moved one step beyond
    the cursor, in either dashboard: playing and scrubbing forward draw
    the same frames. *)
Theorem tick_is_scrub_forward :
  (∀ (nd : list nat) (N : nat) (attrname : string) (old new : Z)
     (s : Locodams.state),
     Forall (λ nj, nj = N) nd →
     (0 < length nd)%nat →
     (length (Locodams.ds s) ≤ length nd)%nat →
     (0 ≤ Locodams.index s < Z.of_nat N)%Z →
     Locodams.animate nd s
     = Locodams.slider_update nd attrname old new
         (Locodams.set_slider_value (Locodams.index s + 1) s))
  ∧
  (∀ (xvals : list (list Z)) (yvals : list (list Q)) (attrname : string)
     (old new : Z) (s : Locoflow.state),
     (0 ≤ Locoflow.index s < 145)%Z →
     Locoflow.animate xvals yvals s
     = Locoflow.slider_update xvals yvals attrname old new
         (Locoflow.set_slider_value (Locoflow.index s + 1) s)).
Proof.
  split.
  - intros nd N attrname old new s Hall Hnd Hlen Hi.
    rewrite (dams_animate_step nd N) by done.
    rewrite (dams_slider_update_frame nd N); [done | done | done |].
    dams_fields. lia.
  - intros xvals yvals attrname old new s Hi.
    rewrite flow_animate_step by done.
    rewrite flow_slider_update_frame; [done|]. flow_fields.
    unfold Locoflow.n. lia.
Qed.

Lemma tick_is_scrub_forward_witness :
  Locodams.animate dams_n dams_start
  = Locodams.slider_update dams_n "value" 0 1 (Locodams.set_slider_value 1 dams_start)
  ∧
  Locoflow.animate flow_xvals flow_yvals flow_start
  = Locoflow.slider_update flow_xvals flow_yvals "value" 0 1
      (Locoflow.set_slider_value 1 flow_start).
Proof.
  split.
  - apply (proj1 tick_is_scrub_forward dams_n 72%nat "value" 0%Z 1%Z dams_start).
    + unfold dams_n. repeat constructor.
    + simpl. lia.
    + simpl. lia.
    + simpl. lia.
  - apply (proj2 tick_is_scrub_forward flow_xvals flow_yvals "value" 0%Z 1%Z flow_start).
    simpl. lia.
Defined.

(** ** Playback state and chart state are separate *)

(** X8. [animate] and [slider_update] never change the button label or
    the registered timers, in either dashboard, from any state and also
    when they raise: whether the animation is playing is decided by the
    button alone. *)
Theorem tick_and_scrub_keep_playback :
  (∀ (nd : list nat) (attrname : string) (old new : Z) (s : Locodams.state),
     Locodams.button_label (state_of (Locodams.animate nd s))
       = Locodams.button_label s ∧
     Locodams.periodic (state_of (Locodams.animate nd s)) = Locodams.periodic s ∧
     Locodams.button_label (state_of (Locodams.slider_update nd attrname old new s))
       = Locodams.button_label s ∧
     Locodams.periodic (state_of (Locodams.slider_update nd attrname old new s))
       = Locodams.periodic s)
  ∧
  (∀ (xvals : list (list Z)) (yvals : list (list Q)) (attrname : string)
     (old new : Z) (s : Locoflow.state),
     Locoflow.button_label (state_of (Locoflow.animate xvals yvals s))
       = Locoflow.button_label s ∧
     Locoflow.periodic (state_of (Locoflow.animate xvals yvals s))
       = Locoflow.periodic s ∧
     Locoflow.button_label
       (state_of (Locoflow.slider_update xvals yvals attrname old new s))
       = Locoflow.button_label s ∧
     Locoflow.periodic
       (state_of (Locoflow.slider_update xvals yvals attrname old new s))
       = Locoflow.periodic s).
Proof.
  split.
  - intros nd attrname old new s.
    assert (Locodams.button_label (state_of (Locodams.animate nd s))
              = Locodams.button_label s ∧
            Locodams.periodic (state_of (Locodams.animate nd s))
              = Locodams.periodic s) as [? ?].
    { destruct (nd !! 0%nat) as [n0|] eqn:Hn.
      - by destruct (dams_animate_fields nd n0 s Hn) as (_ & ? & ? & _).
      - unfold Locodams.animate. by rewrite Hn. }
    split; [done|]. split; [done|].
    by destruct (dams_slider_update_fields nd attrname old new s) as (ds' & -> & _).
  - intros xvals yvals attrname old new s.
    destruct (flow_animate_fields xvals yvals s) as (_ & ? & ?).
    split; [done|]. split; [done|].
    by destruct (flow_slider_update_fields xvals yvals attrname old new s)
      as (srcs & ->).
Qed.

(** X9. A click on the button never changes the cursor, the slider or
    any data source, in either dashboard, for any frame rate and also
    when [update] raises. *)
Theorem update_keeps_chart_state :
  (∀ (fps : Z) (s : Locodams.state),
     let s' := state_of (Locodams.update fps s) in
     Locodams.ds s' = Locodams.ds s ∧
     Locodams.index s' = Locodams.index s ∧
     Locodams.slider_value s' = Locodams.slider_value s)
  ∧
  (∀ (fps : Z) (s : Locoflow.state),
     let s' := state_of (Locoflow.update fps s) in
     Locoflow.ds s' = Locoflow.ds s ∧
     Locoflow.index s' = Locoflow.index s ∧
     Locoflow.slider_value s' = Locoflow.slider_value s).
Proof.
  split.
  - intros fps s. apply dams_update_fields.
  - intros fps s. apply flow_update_fields.
Qed.

(** X10. [update] called with a frame rate of 0 while the label is "Play"
    raises [ZeroDivisionError] after the label has been set to "Pause"
    and before any timer is registered: the button then reads "Pause"
    with nothing playing. *)
Theorem update_zero_fps :
  (∀ s : Locodams.state,
     Locodams.button_label s = "Play" →
     Locodams.update 0 s
     = Raised ZeroDivisionError (Locodams.set_button_label "Pause" s))
  ∧
  (∀ s : Locoflow.state,
     Locoflow.button_label s = "Play" →
     Locoflow.update 0 s
     = Raised ZeroDivisionError (Locoflow.set_button_label "Pause" s)).
Proof.
  split.
  - intros s Hl. unfold Locodams.update. by rewrite decide_True by done.
  - intros s Hl. unfold Locoflow.update. by rewrite decide_True by done.
Qed.

Lemma update_zero_fps_witness :
  Locodams.update 0 dams_start
  = Raised ZeroDivisionError (Locodams.set_button_label "Pause" dams_start)
  ∧
  Locoflow.update 0 flow_start
  = Raised ZeroDivisionError (Locoflow.set_button_label "Pause" flow_start).
Proof.
  split.
  - apply (proj1 update_zero_fps dams_start). reflexivity.
  - apply (proj2 update_zero_fps flow_start). reflexivity.
Defined.

(** X11. From the playing state, with the label "Pause" and [animate]
    registered once at the period of the default frame rate, two clicks
    also return the state they started from: the first stops the timer,
    the second registers it again at the same period. *)
Theorem toggle_twice_while_playing :
  (∀ s : Locodams.state,
     Locodams.button_label s = "Pause" →
     Locodams.periodic s = [(Animate, (1000 / inject_Z Locodams.fps)%Q)] →
     ∃ s1,
       Locodams.update Locodams.fps s = Returned s1 ∧
       Locodams.button_label s1 = "Play" ∧
       ¬ fires Animate (Locodams.periodic s1) ∧
       Locodams.update Locodams.fps s1 = Returned s)
  ∧
  (∀ s : Locoflow.state,
     Locoflow.button_label s = "Pause" →
     Locoflow.periodic s = [(Animate, (1000 / inject_Z Locoflow.fps)%Q)] →
     ∃ s1,
       Locoflow.update Locoflow.fps s = Returned s1 ∧
       Locoflow.button_label s1 = "Play" ∧
       ¬ fires Animate (Locoflow.periodic s1) ∧
       Locoflow.update Locoflow.fps s1 = Returned s).
Proof.
  split.
  - intros [ds0 i v l doc] Hl Hp. simpl in Hl, Hp. subst l doc. eexists.
    split; [by apply (dams_update_pause _ _ [])|]. split; [done|].
    split; [intros [period H]; by apply elem_of_nil in H|].
    by rewrite dams_update_play.
  - intros [ds0 i v l doc] Hl Hp. simpl in Hl, Hp. subst l doc. eexists.
    split; [by apply (flow_update_pause _ _ [])|]. split; [done|].
    split; [intros [period H]; by apply elem_of_nil in H|].
    by rewrite flow_update_play.
Qed.

Lemma toggle_twice_while_playing_witness :
  ∃ s1,
    Locoflow.update Locoflow.fps
      (Locoflow.set_periodic [(Animate, (1000 / inject_Z Locoflow.fps)%Q)]
         (Locoflow.set_button_label "Pause" flow_start)) = Returned s1 ∧
    Locoflow.button_label s1 = "Play".
Proof.
  destruct (proj2 toggle_twice_while_playing
              (Locoflow.set_periodic [(Animate, (1000 / inject_Z Locoflow.fps)%Q)]
                 (Locoflow.set_button_label "Pause" flow_start)))
    as (s1 & H1 & Hl & _).
  - reflexivity.
  - reflexivity.
  - exists s1. split; [exact H1 | exact Hl].
Defined.

(** ** Frames at the bounds *)

(** X12. The comet trail also holds at the last frame [k = N]: the
    redraw returns with the last entry of every array at the high
    opacity and the [N - 1] entries before it at the low opacity, none at
    zero. *)
Theorem comet_trail_last_frame :
  (∀ (nd : list nat) (N : nat) (s : Locodams.state),
     (1 ≤ N)%nat →
     (length (Locodams.ds s) ≤ length nd)%nat →
     Forall (λ nj, nj = N) nd →
     ∃ s', Locodams.redraw2 nd (Z.of_nat N) Locodams.lo Locodams.hi s = Returned s' ∧
       Forall (comet_trail Locodams.lo Locodams.hi N (Z.of_nat N)) (Locodams.ds s') ∧
       Forall (λ d, fill_alpha d = Some (replicate (N - 1) Locodams.lo ++ [Locodams.hi]))
         (Locodams.ds s'))
  ∧
  (∀ s : Locoflow.state,
     ∃ s', Locoflow.redraw_tapes 145 Locoflow.lo Locoflow.hi s = Returned s' ∧
       Forall (comet_trail Locoflow.lo Locoflow.hi 145 145)
         (Locoflow.tapes (Locoflow.ds s')) ∧
       Forall (λ d, fill_alpha d = Some (replicate 144 Locoflow.lo ++ [Locoflow.hi]))
         (Locoflow.tapes (Locoflow.ds s'))).
Proof.
  split.
  - intros nd N s HN Hlen Hall. destruct dams_opacities_distinct as (? & ? & ?).
    eexists. split; [apply (redraw2_in_range nd N); [lia | done..]|].
    dams_fields. split.
    + apply Forall_fmap, Forall_forall. intros d _.
      apply comet_trail_insert; [lia | done..].
    + apply Forall_fmap, Forall_forall. intros d _. cbn [compose].
      rewrite fill_alpha_insert. unfold trail.
      replace (Z.to_nat (Z.of_nat N - 1)) with (N - 1)%nat by lia.
      by replace (N - Z.to_nat (Z.of_nat N))%nat with 0%nat by lia.
  - intros s. destruct flow_opacities_distinct as (? & ? & ?).
    eexists. split; [apply redraw_tapes_in_range; unfold Locoflow.n; lia|].
    flow_fields. split.
    + apply Forall_fmap, Forall_forall. intros d _.
      apply (comet_trail_insert _ _ 145); [lia | done..].
    + apply Forall_fmap, Forall_forall. intros d _. cbn [compose].
      by rewrite fill_alpha_insert.
Qed.

Lemma comet_trail_last_frame_witness :
  ∃ s', Locodams.redraw2 dams_n 72 Locodams.lo Locodams.hi dams_start = Returned s' ∧
    Forall (comet_trail Locodams.lo Locodams.hi 72 72) (Locodams.ds s').
Proof.
  destruct (proj1 comet_trail_last_frame dams_n 72%nat dams_start)
    as (s' & Hs' & Hc & _).
  - lia.
  - simpl. lia.
  - unfold dams_n. repeat constructor.
  - exists s'. split; [exact Hs' | exact Hc].
Defined.

(** X13. Beyond the arrays the comet-trail redraws raise [IndexError] at
    the first source and change nothing: [redraw_tapes(k)] for
    [k ≥ 146] or [k ≤ -145], [redraw2(k)] for [k > n[0]] or
    [k ≤ -n[0]]. Over an empty first table [redraw2] raises for
    every [k]. *)
Theorem redraw_out_of_range_raises :
  (∀ (nd : list nat) (N : nat) (k : Z) (lo hi : Q) (s : Locodams.state),
     Locodams.ds s ≠ [] →
     nd !! 0%nat = Some N →
     (Z.of_nat N < k ∨ k ≤ - Z.of_nat N)%Z →
     Locodams.redraw2 nd k lo hi s = Raised IndexError s)
  ∧
  (∀ (k : Z) (lo hi : Q) (s : Locoflow.state),
     Locoflow.tapes (Locoflow.ds s) ≠ [] →
     (146 ≤ k ∨ k ≤ -145)%Z →
     Locoflow.redraw_tapes k lo hi s = Raised IndexError s).
Proof.
  split.
  - intros nd N k lo hi [ds0 i v l doc] Hne Hn Hk. unfold Locodams.redraw2.
    dams_fields. destruct ds0 as [|d rest]; [done|]. cbn [for_enumerate].
    unfold Locodams.redraw2_body. rewrite Hn. cbv zeta.
    by rewrite py_setitem_out by (rewrite length_comprehension; lia).
  - intros k lo hi [[ps ts ls] i v l doc] Hne Hk. unfold Locoflow.redraw_tapes.
    flow_fields. destruct ts as [|d rest]; [done|]. cbn [for_enumerate].
    unfold Locoflow.redraw_tapes_body. cbv zeta.
    by rewrite py_setitem_out
      by (rewrite length_comprehension; unfold Locoflow.n; lia).
Qed.

Lemma redraw_out_of_range_raises_witness :
  Locodams.redraw2 dams_n 73 Locodams.lo Locodams.hi dams_start
  = Raised IndexError dams_start
  ∧
  Locoflow.redraw_tapes 146 Locoflow.lo Locoflow.hi flow_start
  = Raised IndexError flow_start.
Proof.
  split.
  - apply (proj1 redraw_out_of_range_raises dams_n 72%nat 73%Z).
    + discriminate.
    + reflexivity.
    + lia.
  - apply (proj2 redraw_out_of_range_raises 146%Z).
    + discriminate.
    + lia.
Defined.

(** X14. In the dams dashboard frame 0 is not a cleared frame: over
    tables of [N ≥ 1] rows each, [redraw2(0)] returns with every opacity
    array at zero except its last entry, which index -1 sets to the high
    opacity. *)
Theorem redraw2_frame_zero_wraps (nd : list nat) (N : nat) (lo hi : Q)
    (s : Locodams.state) :
  (1 ≤ N)%nat →
  (length (Locodams.ds s) ≤ length nd)%nat →
  Forall (λ nj, nj = N) nd →
  ∃ s', Locodams.redraw2 nd 0 lo hi s = Returned s' ∧
    length (Locodams.ds s') = length (Locodams.ds s) ∧
    Forall (λ d, ∃ alpha, fill_alpha d = Some alpha ∧ length alpha = N ∧
                   alpha !! (N - 1)%nat = Some hi ∧
                   ∀ i, (i < N - 1)%nat → alpha !! i = Some 0%Q)
      (Locodams.ds s').
Proof.
  intros HN Hlen Hall. destruct N as [|m]; [lia|].
  eexists. split; [by apply (redraw2_frame_zero nd m)|]. dams_fields.
  split; [by rewrite length_fmap|].
  apply Forall_fmap, Forall_forall. intros d _. cbn [compose].
  exists (replicate m 0%Q ++ [hi]). split; [apply fill_alpha_insert|].
  split; [rewrite length_app, length_replicate; simpl; lia|]. split.
  - rewrite lookup_app_r by (rewrite length_replicate; lia).
    rewrite length_replicate. by replace (S m - 1 - m)%nat with 0%nat by lia.
  - intros i Hi. rewrite lookup_app_l by (rewrite length_replicate; lia).
    apply lookup_replicate_2. lia.
Qed.

Lemma redraw2_frame_zero_wraps_witness :
  ∃ s', Locodams.redraw2 dams_n 0 Locodams.lo Locodams.hi dams_start = Returned s' ∧
    length (Locodams.ds s') = 4%nat.
Proof.
  destruct (redraw2_frame_zero_wraps dams_n 72 Locodams.lo Locodams.hi dams_start)
    as (s' & Hs' & Hl & _).
  - lia.
  - simpl. lia.
  - unfold dams_n. repeat constructor.
  - exists s'. split; [exact Hs' | exact Hl].
Defined.

(** X15. [redraw_lines] never raises, and a frame at or beyond the length
    of the series shows every series whole, whatever their lengths: the
    slice [x[:k]] stops at the end of [x]. *)
Theorem redraw_lines_saturates (xvals : list (list Z)) (yvals : list (list Q))
    (k : Z) (s : Locoflow.state) :
  Forall (λ x, (Z.of_nat (length x) ≤ k)%Z) xvals →
  Forall (λ y, (Z.of_nat (length y) ≤ k)%Z) yvals →
  ∃ s', Locoflow.redraw_lines xvals yvals k s = Returned s' ∧
    visible_xs (Locoflow.lines (Locoflow.ds s')) = xvals ∧
    visible_ys (Locoflow.lines (Locoflow.ds s')) = yvals.
Proof.
  intros Hx Hy. eexists. split; [reflexivity|].
  unfold visible_xs, visible_ys. flow_fields.
  rewrite lookup_insert_eq, lookup_insert_ne, lookup_insert_eq by done.
  split.
  - induction Hx as [|x xs Hl Hx IH]; [done|].
    cbn [fmap list_fmap]. f_equal; [by apply py_slice_to_all | exact IH].
  - induction Hy as [|y ys Hl Hy IH]; [done|].
    cbn [fmap list_fmap]. f_equal; [by apply py_slice_to_all | exact IH].
Qed.

Lemma redraw_lines_saturates_witness :
  ∃ s', Locoflow.redraw_lines flow_xvals flow_yvals 200 flow_start = Returned s' ∧
    visible_xs (Locoflow.lines (Locoflow.ds s')) = flow_xvals ∧
    visible_ys (Locoflow.lines (Locoflow.ds s')) = flow_yvals.
Proof.
  apply (redraw_lines_saturates flow_xvals flow_yvals 200 flow_start).
  - unfold flow_xvals. apply Forall_replicate.
    rewrite length_fmap, length_seq. lia.
  - unfold flow_yvals. apply Forall_replicate. rewrite length_replicate. lia.
Defined.

(** ** Slider and cursor *)

Section SliderTracksCursor.

Lemma dams_slider_update_slider_value (nd : list nat) attrname old new
    (s : Locodams.state) :
  Locodams.slider_value (state_of (Locodams.slider_update nd attrname old new s))
  = Locodams.slider_value s.
Proof.
  unfold Locodams.slider_update, Locodams.redraw2. cbv zeta.
  destruct (for_enumerate _ _ _); done.
Qed.

Lemma flow_slider_update_slider_value (xvals : list (list Z)) (yvals : list (list Q))
    attrname old new (s : Locoflow.state) :
  Locoflow.slider_value
    (state_of (Locoflow.slider_update xvals yvals attrname old new s))
  = Locoflow.slider_value s.
Proof.
  unfold Locoflow.slider_update. cbv zeta.
  rewrite redraw_points_returns. flow_fields. unfold Locoflow.redraw_tapes.
  destruct (for_enumerate _ _ _); done.
Qed.

Lemma flow_deliver_tracks xvals yvals e (s : Locoflow.state) :
  match e with Scrub k => (0 ≤ k ≤ 145)%Z | _ => True end →
  (0 ≤ Locoflow.index s ≤ 145)%Z ∧ Locoflow.slider_value s = Locoflow.index s →
  (0 ≤ Locoflow.index (Locoflow.deliver xvals yvals e s) ≤ 145)%Z ∧
  Locoflow.slider_value (Locoflow.deliver xvals yvals e s)
  = Locoflow.index (Locoflow.deliver xvals yvals e s).
Proof.
  intros He [Hi Hs]. destruct e as [|k|]; cbn [Locoflow.deliver].
  - destruct (decide (Locoflow.index s < 145)%Z) as [Hlt|Hge].
    + rewrite flow_animate_step by (unfold Locoflow.n; lia).
      unfold flow_frame. flow_fields. split; [lia | done].
    + rewrite flow_animate_end by (unfold Locoflow.n; lia).
      case_decide as Hv; unfold flow_rewound; flow_fields; [|done].
      split; [lia | done].
  - rewrite flow_slider_update_index, flow_slider_update_slider_value.
    flow_fields. done.
  - destruct (flow_update_fields Locoflow.fps s) as (_ & -> & ->). done.
Qed.

Lemma dams_deliver_tracks (nd : list nat) (N : nat) e (s : Locodams.state) :
  Forall (λ nj, nj = N) nd → (0 < length nd)%nat →
  match e with Scrub k => (0 ≤ k ≤ Z.of_nat N)%Z | _ => True end →
  (length (Locodams.ds s) ≤ length nd)%nat ∧
  (0 ≤ Locodams.index s ≤ Z.of_nat N)%Z ∧
  Locodams.slider_value s = Locodams.index s →
  (length (Locodams.ds (Locodams.deliver nd e s)) ≤ length nd)%nat ∧
  (0 ≤ Locodams.index (Locodams.deliver nd e s) ≤ Z.of_nat N)%Z ∧
  Locodams.slider_value (Locodams.deliver nd e s)
  = Locodams.index (Locodams.deliver nd e s).
Proof.
  intros Hall Hnd He (Hlen & Hi & Hs). destruct e as [|k|]; cbn [Locodams.deliver].
  - destruct (decide (Locodams.index s < Z.of_nat N)%Z) as [Hlt|Hge].
    + rewrite (dams_animate_step nd N) by (done || lia).
      unfold dams_frame. dams_fields. rewrite length_fmap.
      split; [done|]. split; [lia | done].
    + destruct (decide (Locodams.slider_value s = 0%Z)) as [Hv|Hv].
      * rewrite (dams_animate_end nd N) by done.
        unfold dams_rewound. dams_fields. rewrite length_fmap.
        split; [done|]. split; [lia | done].
      * rewrite (dams_animate_end_wrapped nd N) by (done || lia).
        unfold dams_wrapped. dams_fields. rewrite length_fmap.
        split; [done|]. split; [lia | done].
  - rewrite dams_slider_update_index, dams_slider_update_slider_value.
    dams_fields. split; [|done].
    unfold Locodams.slider_update, Locodams.redraw2. cbv zeta.
    pose proof (for_enumerate_length
      (Locodams.redraw2_body nd
         (Locodams.index (Locodams.set_index
            (Locodams.slider_value (Locodams.set_slider_value k s))
            (Locodams.set_slider_value k s)))
         Locodams.lo Locodams.hi) 0
      (Locodams.ds (Locodams.set_index
            (Locodams.slider_value (Locodams.set_slider_value k s))
            (Locodams.set_slider_value k s)))) as Hl.
    destruct (for_enumerate _ _ _); dams_fields; lia.
  - destruct (dams_update_fields Locodams.fps s) as (-> & -> & ->). done.
Qed.

End SliderTracksCursor.

(** X16. The slider shows the cursor. From a state in which slider and
    cursor agree on a frame of the timeline, they agree again after any
    sequence of ticks, clicks and slider moves within the timeline: in
    the flow dashboard always, in the dams dashboard over tables of [N]
    rows each. *)
Theorem slider_tracks_cursor :
  (∀ (nd : list nat) (N : nat) (es : list event) (s : Locodams.state),
     Forall (λ nj, nj = N) nd →
     (0 < length nd)%nat →
     (length (Locodams.ds s) ≤ length nd)%nat →
     (0 ≤ Locodams.index s ≤ Z.of_nat N)%Z →
     Locodams.slider_value s = Locodams.index s →
     scrubs_within (Z.of_nat N) es →
     Locodams.slider_value (Locodams.run nd es s)
     = Locodams.index (Locodams.run nd es s))
  ∧
  (∀ (xvals : list (list Z)) (yvals : list (list Q)) (es : list event)
     (s : Locoflow.state),
     (0 ≤ Locoflow.index s ≤ 145)%Z →
     Locoflow.slider_value s = Locoflow.index s →
     scrubs_within 145 es →
     Locoflow.slider_value (Locoflow.run xvals yvals es s)
     = Locoflow.index (Locoflow.run xvals yvals es s)).
Proof.
  split.
  - intros nd N es s Hall Hnd Hlen Hi Hs Hes.
    assert ((length (Locodams.ds (Locodams.run nd es s)) ≤ length nd)%nat ∧
            (0 ≤ Locodams.index (Locodams.run nd es s) ≤ Z.of_nat N)%Z ∧
            Locodams.slider_value (Locodams.run nd es s)
            = Locodams.index (Locodams.run nd es s)) as (_ & _ & H); [|done].
    revert s Hlen Hi Hs. induction Hes as [|e es He Hes IH]; intros s Hlen Hi Hs; [done|].
    unfold Locodams.run. cbn [foldl].
    destruct (dams_deliver_tracks nd N e s Hall Hnd He) as (? & ? & ?); [done|].
    by apply IH.
  - intros xvals yvals es s Hi Hs Hes.
    assert ((0 ≤ Locoflow.index (Locoflow.run xvals yvals es s) ≤ 145)%Z ∧
            Locoflow.slider_value (Locoflow.run xvals yvals es s)
            = Locoflow.index (Locoflow.run xvals yvals es s)) as [_ H]; [|done].
    revert s Hi Hs. induction Hes as [|e es He Hes IH]; intros s Hi Hs; [done|].
    unfold Locoflow.run. cbn [foldl].
    destruct (flow_deliver_tracks xvals yvals e s He) as [? ?]; [done|].
    by apply IH.
Qed.

Lemma slider_tracks_cursor_witness :
  Locodams.slider_value
    (Locodams.run dams_n [Tick; Tick; Scrub 40; Click; Tick] dams_start)
  = Locodams.index
      (Locodams.run dams_n [Tick; Tick; Scrub 40; Click; Tick] dams_start)
  ∧
  Locoflow.slider_value
    (Locoflow.run flow_xvals flow_yvals [Tick; Scrub 145; Tick; Tick] flow_start)
  = Locoflow.index
      (Locoflow.run flow_xvals flow_yvals [Tick; Scrub 145; Tick; Tick] flow_start).
Proof.
  split.
  - apply (proj1 slider_tracks_cursor dams_n 72%nat).
    + unfold dams_n. repeat constructor.
    + simpl. lia.
    + simpl. lia.
    + simpl. lia.
    + reflexivity.
    + unfold scrubs_within. repeat constructor; lia.
  - apply (proj2 slider_tracks_cursor flow_xvals flow_yvals).
    + simpl. lia.
    + reflexivity.
    + unfold scrubs_within. repeat constructor; lia.
Defined.

(** ** Tables of unequal length *)

Section Mismatch.

Lemma for_enumerate_raised body j (ds ds' : list data) e :
  for_enumerate body j ds = Raised e ds' →
  ∃ i d, ds !! i = Some d ∧ body (j + i)%nat d = inl e.
Proof.
  revert j ds'. induction ds as [|d rest IH]; intros j ds'; simpl; [done|].
  destruct (body j d) as [e0|d1] eqn:Hb.
  - intros [= <- _]. exists 0%nat, d. split; [done|].
    by replace (j + 0)%nat with j by lia.
  - destruct (for_enumerate body (S j) rest) as [rest'|e0 rest'] eqn:Hr; [done|].
    intros [= <- _]. destruct (IH _ _ Hr) as (i & d0 & Hd0 & Hb0).
    exists (S i), d0. split; [done|].
    by replace (j + S i)%nat with (S j + i)%nat by lia.
Qed.

Lemma redraw2_body_raises (nd : list nat) k lo hi j (d : data) e :
  Locodams.redraw2_body nd k lo hi j d = inl e → e = IndexError.
Proof.
  unfold Locodams.redraw2_body. destruct (nd !! j); [|by intros [= <-]].
  cbv zeta. unfold py_setitem. destruct (py_index _ _); [done|]. by intros [= <-].
Qed.

End Mismatch.

(** X17. Tables of unequal length are not guarded against. In the dams
    dashboard, when some element's table has fewer rows than the frame a
    tick moves to, [animate] raises [IndexError] after it has advanced
    the cursor and before it sets the slider: the cursor is one frame
    ahead, the slider where it was, and the button and the timers are
    unchanged. *)
Theorem dams_animate_short_table (nd : list nat) (n0 nj j : nat) (d : data)
    (s : Locodams.state) :
  nd !! 0%nat = Some n0 →
  (Locodams.index s < Z.of_nat n0)%Z →
  Locodams.ds s !! j = Some d →
  nd !! j = Some nj →
  (Z.of_nat nj ≤ Locodams.index s)%Z →
  ∃ s', Locodams.animate nd s = Raised IndexError s' ∧
    Locodams.index s' = (Locodams.index s + 1)%Z ∧
    Locodams.slider_value s' = Locodams.slider_value s ∧
    Locodams.button_label s' = Locodams.button_label s ∧
    Locodams.periodic s' = Locodams.periodic s ∧
    length (Locodams.ds s') = length (Locodams.ds s).
Proof.
  intros Hn0 Hi Hd Hnj Hshort. unfold Locodams.animate. rewrite Hn0.
  rewrite decide_True by done. cbv zeta. unfold Locodams.redraw2. dams_fields.
  pose proof (for_enumerate_length
    (Locodams.redraw2_body nd (Locodams.index s + 1) Locodams.lo Locodams.hi) 0
    (Locodams.ds s)) as Hlen.
  destruct (for_enumerate_raises
    (Locodams.redraw2_body nd (Locodams.index s + 1) Locodams.lo Locodams.hi) 0
    (Locodams.ds s) j d IndexError Hd) as (e & ds' & Hr).
  { cbn [Nat.add]. unfold Locodams.redraw2_body. rewrite Hnj. cbv zeta.
    by rewrite py_setitem_out by (rewrite length_comprehension; lia). }
  rewrite Hr in Hlen |- *. dams_fields.
  destruct (for_enumerate_raised _ _ _ _ _ Hr) as (i & d0 & _ & Hb).
  apply redraw2_body_raises in Hb as ->.
  eexists. split; [reflexivity|]. by dams_fields.
Qed.

Lemma dams_animate_short_table_witness :
  ∃ s', Locodams.animate [72; 72; 10; 72]%nat (Locodams.set_index 35 dams_start)
        = Raised IndexError s' ∧
    Locodams.index s' = 36%Z ∧
    Locodams.slider_value s' = 0%Z.
Proof.
  destruct (dams_animate_short_table [72; 72; 10; 72]%nat 72 10 2 (sample_source 72)
              (Locodams.set_index 35 dams_start))
    as (s' & Hs' & Hi & Hv & _).
  - reflexivity.
  - simpl. lia.
  - reflexivity.
  - reflexivity.
  - simpl. lia.
  - exists s'. split; [exact Hs'|]. split; [exact Hi | exact Hv].
Defined.

(** X18. A slider move leaves no trace of the frame shown before it:
    [slider_update] at [k'] followed, the slider moved on, by
    [slider_update] at [k] gives the state that [slider_update] at [k]
    alone gives, for frames in [1, N], in either dashboard. *)
Theorem scrub_overwrites :
  (∀ (nd : list nat) (N : nat) (attrname : string) (old new : Z) (k k' : Z)
     (s : Locodams.state),
     Forall (λ nj, nj = N) nd →
     (length (Locodams.ds s) ≤ length nd)%nat →
     (1 ≤ k ≤ Z.of_nat N)%Z → (1 ≤ k' ≤ Z.of_nat N)%Z →
     ∃ s1,
       Locodams.slider_update nd attrname old new (Locodams.set_slider_value k' s)
       = Returned s1 ∧
       Locodams.slider_update nd attrname old new (Locodams.set_slider_value k s1)
       = Locodams.slider_update nd attrname old new (Locodams.set_slider_value k s))
  ∧
  (∀ (xvals : list (list Z)) (yvals : list (list Q)) (attrname : string)
     (old new : Z) (k k' : Z) (s : Locoflow.state),
     (1 ≤ k ≤ 145)%Z → (1 ≤ k' ≤ 145)%Z →
     ∃ s1,
       Locoflow.slider_update xvals yvals attrname old new
         (Locoflow.set_slider_value k' s) = Returned s1 ∧
       Locoflow.slider_update xvals yvals attrname old new
         (Locoflow.set_slider_value k s1)
       = Locoflow.slider_update xvals yvals attrname old new
           (Locoflow.set_slider_value k s)).
Proof.
  split.
  - intros nd N attrname old new k k' s Hall Hlen Hk Hk'. eexists.
    split; [by apply (dams_slider_update_frame nd N)|].
    rewrite !(dams_slider_update_frame nd N);
      [| done..
       | done | unfold dams_frame; dams_fields; by rewrite length_fmap | done].
    dams_fields. unfold dams_frame. dams_fields. do 2 f_equal.
    rewrite <- list_fmap_compose. apply list_fmap_ext. intros i d _.
    apply insert_insert_eq.
  - intros xvals yvals attrname old new k k' s Hk Hk'. eexists.
    split; [by apply flow_slider_update_frame|].
    rewrite !flow_slider_update_frame by (flow_fields; done).
    flow_fields. f_equal. exact (flow_frame_frame xvals yvals k k' s).
Qed.

Lemma scrub_overwrites_witness :
  (∃ s1,
     Locodams.slider_update dams_n "value" 0 60 (Locodams.set_slider_value 60 dams_start)
     = Returned s1 ∧
     Locodams.slider_update dams_n "value" 0 60 (Locodams.set_slider_value 36 s1)
     = Locodams.slider_update dams_n "value" 0 60
         (Locodams.set_slider_value 36 dams_start))
  ∧
  (∃ s1,
     Locoflow.slider_update flow_xvals flow_yvals "value" 0 60
       (Locoflow.set_slider_value 60 flow_start) = Returned s1 ∧
     Locoflow.slider_update flow_xvals flow_yvals "value" 0 60
       (Locoflow.set_slider_value 36 s1)
     = Locoflow.slider_update flow_xvals flow_yvals "value" 0 60
         (Locoflow.set_slider_value 36 flow_start)).
Proof.
  split.
  - apply (proj1 scrub_overwrites dams_n 72%nat "value" 0%Z 60%Z 36%Z 60%Z dams_start).
    + unfold dams_n. repeat constructor.
    + simpl. lia.
    + lia.
    + lia.
  - apply (proj2 scrub_overwrites flow_xvals flow_yvals "value" 0%Z 60%Z 36%Z 60%Z
             flow_start); lia.
Defined.
